(** * go-cloud: the Runtime Configurator watcher and the MySQL URL mux

    A shallow embedding of two files of the repository:

    - package [runtimeconfigurator]: [NewVariable], the polling loop
      [watcher.Watch] and its helpers [bytesFromProto], [bytesNotEqual] and
      [parseUpdateTime];
    - package [mysql]: [URLMux.RegisterMySQL] and [URLMux.OpenMySQLURL].

    Go values are modelled as follows.  A [[]byte] is a [list byte] (a nil
    slice and an empty slice are both [[]]; the code only takes [len] and
    indexes).  [time.Duration] is an [int64] count of nanoseconds, a [Z] with
    the wrap-around of its arithmetic written out.  A [time.Time] is the
    instant it denotes, a [Z] count of nanoseconds on the process clock.  A Go
    [(T, error)] result is a sum [T + error].  What the loop reads from
    outside (the clock, the [select], the RPC) is supplied by a script of
    [tick]s, one per iteration. *)

From Stdlib Require Import ZArith Lia.
From Stdlib.Strings Require Import Byte String.
From stdpp Require Import base option list strings gmap.

#[global] Instance byte_eq_dec : EqDecision byte := Byte.byte_eq_dec.

Module Runtimeconfigurator.

(** ** [bytesNotEqual] *)

(** The [for i := 0; i < n; i++] loop of [bytesNotEqual], entered at index
    [i] with [k = n - i] iterations left.  The result pairs the returned
    boolean with the number of times [a[i] != b[i]] was evaluated.  [None] is
    the run-time panic of an index out of range. *)
Fixpoint bytesNotEqual_loop (a b : list byte) (i k : nat) : option (bool * nat) :=
  match k with
  | O => Some (false, O)
  | S k' =>
      match a !! i, b !! i with
      | Some x, Some y =>
          if negb (Byte.eqb x y) then Some (true, 1%nat)
          else match bytesNotEqual_loop a b (S i) k' with
               | Some (r, c) => Some (r, S c)
               | None => None
               end
      | _, _ => None
      end
  end.

(** [bytesNotEqual] with the count of byte comparisons it made. *)
Definition bytesNotEqual_run (a b : list byte) : option (bool * nat) :=
  let n := length a in
  if negb (n =? length b)%nat then Some (true, O)
  else bytesNotEqual_loop a b O n.

Definition bytesNotEqual (a b : list byte) : option bool :=
  fst <$> bytesNotEqual_run a b.

(** ** Time *)

Definition Duration := Z.
Definition Time := Z.

Definition minDuration : Duration := (- 2 ^ 63)%Z.
Definition maxDuration : Duration := (2 ^ 63 - 1)%Z.
Definition is_int64 (z : Z) : Prop := (minDuration <= z <= maxDuration)%Z.

Definition Nanosecond : Duration := 1%Z.
Definition Second : Duration := (1000000000 * Nanosecond)%Z.
Definition Minute : Duration := (60 * Second)%Z.

(** [int64] arithmetic wraps around. *)
Definition wrap64 (z : Z) : Z := ((z + 2 ^ 63) mod 2 ^ 64 - 2 ^ 63)%Z.
Definition Duration_sub (a b : Duration) : Duration := wrap64 (a - b).
Definition Duration_mul (a b : Duration) : Duration := wrap64 (a * b).

(** [t.Add(d)]. *)
Definition Time_Add (t : Time) (d : Duration) : Time := (t + d)%Z.

(** [t.Sub(u)]: the difference, saturated to the range of [Duration]. *)
Definition Time_Sub (t u : Time) : Duration :=
  if (t - u <? minDuration)%Z then minDuration
  else if (maxDuration <? t - u)%Z then maxDuration
  else (t - u)%Z.

(** The zero value [time.Time{}]; only its being a fixed instant matters. *)
Definition Time_zero : Time := 0%Z.

(** [t.UTC()] changes the location, not the instant. *)
Definition Time_UTC (t : Time) : Time := t.

Definition defaultWaitTimeout : Duration := Duration_mul 10%Z Minute.

(** ** Errors *)

(** gRPC status codes ([codes.Code] is a [uint32]). *)
Definition codes_Code := N.
Definition codes_Unknown : codes_Code := 2%N.
Definition codes_NotFound : codes_Code := 5%N.

(** The error values that flow through the package. *)
Inductive error : Type :=
  | context_Canceled
  | context_DeadlineExceeded
  | status_Error (c : codes_Code) (msg : string)
      (* an error carrying a gRPC status *)
  | plain_Error (msg : string)
      (* any other error value *)
  | Errorf_invalid_timestamp (name : string) (cause : error)
      (* "variable message for name=%q contains invalid timestamp: %v" *)
  | Errorf_negative_WaitTime (waitTime : Duration).
      (* "cannot have negative WaitTime option value: %v" *)

(** [status.FromError] on a non-nil error: the status code and whether the
    error carried a status at all. *)
Definition status_FromError (err : error) : codes_Code * bool :=
  match err with
  | status_Error c _ => (c, true)
  | _ => (codes_Unknown, false)
  end.

(** ** The protobuf message *)

Record Timestamp : Type := { Seconds : Z; Nanos : Z }.

Inductive isVariable_Contents : Type :=
  | Variable_Value (v : list byte)
  | Variable_Text (s : string).

Record pb_Variable : Type := {
  pb_Name : string;
  pb_Contents : option isVariable_Contents;
  pb_UpdateTime : option Timestamp
}.

Definition GetValue (vpb : pb_Variable) : list byte :=
  match pb_Contents vpb with Some (Variable_Value v) => v | _ => [] end.

Definition GetText (vpb : pb_Variable) : string :=
  match pb_Contents vpb with Some (Variable_Text s) => s | _ => "" end.

Definition bytesFromProto (vpb : pb_Variable) : list byte :=
  match pb_Contents vpb with
  | Some (Variable_Value _) => GetValue vpb
  | _ => list_byte_of_string (GetText vpb)
  end.

(** ** Resource names *)

Record ResourceName : Type := {
  ProjectID : string;
  Config : string;
  Variable_ : string   (* the field Variable *)
}.

Definition ResourceName_String (r : ResourceName) : string :=
  "projects/" +:+ ProjectID r +:+ "/configs/" +:+ Config r
    +:+ "/variables/" +:+ Variable_ r.

(** ** What one iteration of the loop observes *)

Record tick : Type := {
  now_timer : Time;
    (* time.Now() when the timer is created *)
  ctx_done : option error;
    (* Some e: the select takes <-ctx.Done() and ctx.Err() is e;
       None: it takes <-t.C *)
  GetVariable : string -> pb_Variable + error;
    (* the answer of the GetVariable RPC to a request for a name *)
  now_rpc : Time;
    (* time.Now() when the RPC has returned *)
  now_deleted : Time
    (* time.Now() when the variable is marked deleted *)
}.

Inductive event : Type :=
  | NewTimer (d : Duration)
  | TimerStop
  | RPC_GetVariable (name : string).

Section Watcher.

(** Decoded values ([interface{}]), the target type and the decode functions
    of package [runtimevar], which this file only calls. *)
Variable Val : Type.
Variable TargetType : Type.
Variable runtimevar_Decode : Type.
Variable runtimevar_JSONDecode : runtimevar_Decode.
Variable runtimevar_NewDecoder :
  TargetType -> runtimevar_Decode -> (list byte -> Val + error).

(** [ptypes.Timestamp] of package [github.com/golang/protobuf/ptypes]. *)
Variable ptypes_Timestamp : option Timestamp -> Time + error.

Record driver_Variable : Type := {
  Value : Val;
  UpdateTime : Time
}.

Record WatchOptions : Type := {
  WaitTime : Duration;
  Decode : option runtimevar_Decode
}.

(** The RPC client field is the script of [tick]s. *)
Record watcher : Type := {
  waitTime : Duration;
  lastRPCTime : Time;
  name : string;
  decoder : list byte -> Val + error;
  bytes : list byte;
  isDeleted : bool;
  updateTime : Time
}.

Definition set_lastRPCTime (w : watcher) (t : Time) : watcher :=
  {| waitTime := waitTime w; lastRPCTime := t; name := name w;
     decoder := decoder w; bytes := bytes w; isDeleted := isDeleted w;
     updateTime := updateTime w |}.

(** [w.bytes = b; w.updateTime = t; w.isDeleted = false]. *)
Definition set_content (w : watcher) (b : list byte) (t : Time) : watcher :=
  {| waitTime := waitTime w; lastRPCTime := lastRPCTime w; name := name w;
     decoder := decoder w; bytes := b; isDeleted := false;
     updateTime := t |}.

(** [w.isDeleted = true; w.updateTime = t]. *)
Definition set_deleted (w : watcher) (t : Time) : watcher :=
  {| waitTime := waitTime w; lastRPCTime := lastRPCTime w; name := name w;
     decoder := decoder w; bytes := bytes w; isDeleted := true;
     updateTime := t |}.

Definition NewVariable (now : Time) (name : ResourceName)
    (targetType : TargetType) (opts : option WatchOptions) : watcher + error :=
  let opts :=
    match opts with
    | None => {| WaitTime := 0%Z; Decode := None |}
    | Some o => o
    end in
  let waitTime := WaitTime opts in
  let switch : Duration + error :=
    if (waitTime =? 0)%Z then inl defaultWaitTimeout
    else if (waitTime <? 0)%Z then inr (Errorf_negative_WaitTime waitTime)
    else inl waitTime in
  match switch with
  | inr err => inr err
  | inl waitTime =>
      let decodeFn :=
        match Decode opts with
        | Some f => f
        | None => runtimevar_JSONDecode
        end in
      let decoder := runtimevar_NewDecoder targetType decodeFn in
      inl {| waitTime := waitTime;
             lastRPCTime := Time_Add now (Duration_mul (-1)%Z waitTime);
             name := ResourceName_String name;
             decoder := decoder;
             bytes := [];
             isDeleted := false;
             updateTime := Time_zero |}
  end.

Definition parseUpdateTime (vpb : pb_Variable) : Time + error :=
  match ptypes_Timestamp (pb_UpdateTime vpb) with
  | inr err => inr (Errorf_invalid_timestamp (pb_Name vpb) err)
  | inl updateTime => inl updateTime
  end.

(** How one pass through the body of the [for] loop ends. *)
Inductive control : Type :=
  | Return (r : driver_Variable + error)
  | Continue
  | Panic.

(** The duration handed to [time.NewTimer]. *)
Definition timerDuration (w : watcher) (now : Time) : Duration :=
  Duration_sub (waitTime w) (Time_Sub now (lastRPCTime w)).

(** One pass through the body of the [for] loop of [Watch]. *)
Definition Watch_iter (w : watcher) (t : tick)
    : watcher * control * list event :=
  let d := timerDuration w (now_timer t) in
  match ctx_done t with
  | Some e => (w, Return (inr e), [NewTimer d; TimerStop])
  | None =>
      let ev := [NewTimer d; RPC_GetVariable (name w)] in
      let rpc := GetVariable t (name w) in
      let w := set_lastRPCTime w (now_rpc t) in
      match rpc with
      | inl vpb =>
          match parseUpdateTime vpb with
          | inr err => (w, Return (inr err), ev)
          | inl updateTime =>
              let b := bytesFromProto vpb in
              let changed :=
                if isDeleted w then Some true else bytesNotEqual (bytes w) b in
              match changed with
              | None => (w, Panic, ev)
              | Some true =>
                  let w := set_content w b updateTime in
                  match decoder w b with
                  | inr err => (w, Return (inr err), ev)
                  | inl val =>
                      (w, Return (inl {| Value := val;
                                         UpdateTime := updateTime |}), ev)
                  end
              | Some false => (w, Continue, ev)
              end
          end
      | inr err =>
          let '(code, ok) := status_FromError err in
          if negb ok || negb (code =? codes_NotFound)%N
          then (w, Return (inr err), ev)
          else if negb (isDeleted w)
          then (set_deleted w (Time_UTC (now_deleted t)), Return (inr err), ev)
          else (w, Continue, ev)
      end
  end.

(** [Watch]: the loop, run against a script.  [Continue] as the result of
    the whole call says that the script ran out while the loop was still
    going round. *)
Fixpoint Watch (w : watcher) (env : list tick)
    : watcher * control * list event :=
  match env with
  | [] => (w, Continue, [])
  | t :: env' =>
      match Watch_iter w t with
      | (w', Continue, ev) =>
          let '(w'', r, ev') := Watch w' env' in (w'', r, ev ++ ev')
      | res => res
      end
  end.

(** The watcher after a run of loop iterations, however they are split
    into calls of [Watch]. *)
Definition iterations (w : watcher) (env : list tick) : watcher :=
  fold_left (fun w t => fst (fst (Watch_iter w t))) env w.

End Watcher.

Arguments Value {Val} _.
Arguments UpdateTime {Val} _.
Arguments waitTime {Val} _.
Arguments lastRPCTime {Val} _.
Arguments name {Val} _.
Arguments decoder {Val} _ _.
Arguments bytes {Val} _.
Arguments isDeleted {Val} _.
Arguments updateTime {Val} _.
Arguments set_lastRPCTime {Val} _ _.
Arguments set_content {Val} _ _ _.
Arguments set_deleted {Val} _ _.
Arguments WaitTime {runtimevar_Decode} _.
Arguments Decode {runtimevar_Decode} _.
Arguments Return {Val} _.
Arguments Continue {Val}.
Arguments Panic {Val}.
Arguments timerDuration {Val} _ _.
Arguments Watch_iter {Val} _ _ _.
Arguments Watch {Val} _ _ _.
Arguments iterations {Val} _ _ _.
Arguments NewVariable {Val TargetType runtimevar_Decode} _ _ _ _ _ _.

End Runtimeconfigurator.

Module Mysql.

(** The fields of [url.URL] that matter here; [URLMux] reads [Scheme]. *)
Record URL : Type := {
  Scheme : string;
  Host : string;
  Path : string;
  RawQuery : string
}.

Inductive error : Type :=
  | Errorf_no_scheme (u : URL)
      (* "open connection %q: no scheme in URL" *)
  | Errorf_no_provider (u : URL) (scheme : string)
      (* "open connection %q: no provider registered for %s" *)
  | Errorf_already_registered (scheme : string)
      (* "scheme %q already registered on mux" *)
  | opener_Error (msg : string).
      (* an error of an opener's own *)

(** The constant [Scheme] of the package. *)
Definition mysql_Scheme : string := "mysql".

Record connector : Type := { dsn : string }.

(** A call either completes with a value or panics. *)
Inductive outcome (A : Type) : Type :=
  | Done (a : A)
  | Panics (e : option error).
Arguments Done {A} _.
Arguments Panics {A} _.

Section Mux.

(** [*sql.DB]. *)
Variable DB : Type.

(** The interface [MySQLURLOpener]: a value with the one method. *)
Record MySQLURLOpener : Type := {
  opener_OpenMySQLURL : URL -> DB + error
}.

(** [schemes] is a Go map: [None] is the nil map of the zero value.  The
    values are interface values, [None] being the nil interface. *)
Record URLMux : Type := {
  schemes : option (gmap string (option MySQLURLOpener))
}.

(** Reading [m[k]]: a nil map and a missing key give the zero value. *)
Definition map_index (m : option (gmap string (option MySQLURLOpener)))
    (k : string) : option MySQLURLOpener :=
  match m with
  | None => None
  | Some tbl => match tbl !! k with Some o => o | None => None end
  end.

(** [RegisterMySQL] on a non-nil receiver: the mux after the call. *)
Definition RegisterMySQL (mux : URLMux) (scheme : string)
    (opener : option MySQLURLOpener) : outcome URLMux :=
  match schemes mux with
  | None => Done {| schemes := Some (<[scheme := opener]> ∅) |}
  | Some tbl =>
      match tbl !! scheme with
      | Some _ => Panics (Some (Errorf_already_registered scheme))
      | None => Done {| schemes := Some (<[scheme := opener]> tbl) |}
      end
  end.

(** [OpenMySQLURL]: the receiver and the URL are pointers, [None] being
    nil.  The result comes with the list of openers that were called, each
    with the URL it was given. *)
Definition OpenMySQLURL (mux : option URLMux) (u : option URL)
    : outcome ((DB + error) * list (MySQLURLOpener * URL)) :=
  match u with
  | None => Panics None   (* nil pointer dereference at u.Scheme *)
  | Some u =>
      if String.eqb (Scheme u) "" then Done (inr (Errorf_no_scheme u), [])
      else
        let opener :=
          match mux with
          | Some mux => map_index (schemes mux) (Scheme u)
          | None => None
          end in
        match opener with
        | None => Done (inr (Errorf_no_provider u (Scheme u)), [])
        | Some opener => Done (opener_OpenMySQLURL opener u, [(opener, u)])
        end
  end.

(** [sql.OpenDB] and the [String] method of [url.URL], which the opener of
    this package calls. *)
Variable sql_OpenDB : connector -> DB.
Variable URL_String : URL -> string.

Definition openWithUrl (url : URL) : DB + error :=
  inl (sql_OpenDB {| dsn := URL_String url |}).

(** The opener [&URLOpener{}]. *)
Definition URLOpener : MySQLURLOpener :=
  {| opener_OpenMySQLURL := fun u => openWithUrl u |}.

(** [new(URLMux)], and the mux once [init] has run. *)
Definition zero_URLMux : URLMux := {| schemes := None |}.

Definition init : outcome URLMux :=
  RegisterMySQL zero_URLMux mysql_Scheme (Some URLOpener).

End Mux.

Arguments opener_OpenMySQLURL {DB} _ _.
Arguments schemes {DB} _.
Arguments map_index {DB} _ _.
Arguments RegisterMySQL {DB} _ _ _.
Arguments OpenMySQLURL {DB} _ _.
Arguments zero_URLMux {DB}.

End Mysql.

Module MysqlDemo.

Import Mysql.

(** A database handle is the DSN it was opened with. *)
Definition OpenDB (c : connector) : string := dsn c.

Definition URL_String (u : URL) : string :=
  Scheme u +:+ "://" +:+ Host u +:+ Path u.

Definition opener : MySQLURLOpener string := URLOpener string OpenDB URL_String.

(** The default mux after [init]. *)
Definition defaultURLMux : URLMux string :=
  {| schemes := Some (<[mysql_Scheme := Some opener]> ∅) |}.

Definition mysql_url : URL :=
  {| Scheme := "mysql"; Host := "localhost"; Path := "/db"; RawQuery := "" |}.

Definition postgres_url : URL :=
  {| Scheme := "postgres"; Host := "localhost"; Path := "/db";
     RawQuery := "" |}.

Definition relative_url : URL :=
  {| Scheme := ""; Host := ""; Path := "/db"; RawQuery := "" |}.

End MysqlDemo.

(** * A concrete environment

    The functions the watcher only calls are fixed here, so that the model
    runs on concrete inputs. *)
Module Demo.

Import Runtimeconfigurator.

(** A decode function that rejects the empty payload and returns any other
    payload as it is. *)
Definition decode_nonempty (b : list byte) : list byte + error :=
  match b with
  | [] => inr (plain_Error "unexpected end of input")
  | _ => inl b
  end.

Definition NewDecoder (_ : unit) (f : list byte -> list byte + error)
    : list byte -> list byte + error := f.

(** A stand-in for [ptypes.Timestamp] with the range checks the library
    documents: the timestamp is present, its seconds lie between the years 1
    and 10000, its nanoseconds in [0, 1e9). *)
Definition ptypes_Timestamp (ts : option Timestamp) : Time + error :=
  match ts with
  | None => inr (plain_Error "timestamp: nil Timestamp")
  | Some ts =>
      if (Seconds ts <? -62135596800)%Z
      then inr (plain_Error "timestamp: before 0001-01-01")
      else if (253402300800 <=? Seconds ts)%Z
      then inr (plain_Error "timestamp: after 10000-01-01")
      else if (Nanos ts <? 0)%Z || (1000000000 <=? Nanos ts)%Z
      then inr (plain_Error "timestamp: nanos not in range [0, 1e9)")
      else inl (Seconds ts * 1000000000 + Nanos ts)%Z
  end.

Definition resource : ResourceName :=
  {| ProjectID := "p"; Config := "c"; Variable_ := "v" |}.

(** A message with text content [s], updated at second [sec]. *)
Definition text_at (s : string) (sec : Z) : pb_Variable :=
  {| pb_Name := ResourceName_String resource;
     pb_Contents := Some (Variable_Text s);
     pb_UpdateTime := Some {| Seconds := sec; Nanos := 0%Z |} |}.

(** The same with nanoseconds out of range. *)
Definition text_bad_time (s : string) : pb_Variable :=
  {| pb_Name := ResourceName_String resource;
     pb_Contents := Some (Variable_Text s);
     pb_UpdateTime := Some {| Seconds := 0%Z; Nanos := (-1)%Z |} |}.

Definition not_found : error := status_Error codes_NotFound "not found".
Definition unavailable : error := status_Error 14%N "unavailable".

(** An iteration at time [now] whose timer fires and whose RPC answers [r]. *)
Definition fetch (now : Time) (r : pb_Variable + error) : tick :=
  {| now_timer := now; ctx_done := None; GetVariable := fun _ => r;
     now_rpc := (now + 1)%Z; now_deleted := (now + 2)%Z |}.

(** An iteration at time [now] in which the context is done first. *)
Definition cancelled (now : Time) : tick :=
  {| now_timer := now; ctx_done := Some context_Canceled;
     GetVariable := fun _ => inr unavailable;
     now_rpc := now; now_deleted := now |}.

(** The watcher [NewVariable] builds at time 1000 with no options. *)
Definition w_new : watcher (list byte) :=
  {| waitTime := 600000000000%Z;
     lastRPCTime := (1000 - 600000000000)%Z;
     name := "projects/p/configs/c/variables/v";
     decoder := decode_nonempty;
     bytes := [];
     isDeleted := false;
     updateTime := Time_zero |}.

(** A watcher that has seen content [s]. *)
Definition w_with (s : string) (deleted : bool) : watcher (list byte) :=
  {| waitTime := 600000000000%Z;
     lastRPCTime := 0%Z;
     name := "projects/p/configs/c/variables/v";
     decoder := decode_nonempty;
     bytes := list_byte_of_string s;
     isDeleted := deleted;
     updateTime := 5%Z |}.

End Demo.

(** * The rest of package [mysql] and helpers for statements *)

Module MysqlOpen.

Import Mysql.

Section Open.

Variable DB : Type.

(** [url.Parse] of the standard library and the errors it returns. *)
Variable url_Error : Type.
Variable url_Parse : string -> URL + url_Error.

(** The errors [OpenMySQL] returns: its own wrapping of a parse error
    ("open connection: %v"), or an error of [OpenMySQLURL]. *)
Inductive open_error : Type :=
  | Errorf_open_connection (cause : url_Error)
  | mux_error (e : error).

Definition OpenMySQL (mux : option (URLMux DB)) (urlstr : string)
    : outcome ((DB + open_error) * list (MySQLURLOpener DB * URL)) :=
  match url_Parse urlstr with
  | inr err => Done (inr (Errorf_open_connection err), [])
  | inl u =>
      match OpenMySQLURL mux (Some u) with
      | Done (inl db, calls) => Done (inl db, calls)
      | Done (inr e, calls) => Done (inr (mux_error e), calls)
      | Panics p => Panics p
      end
  end.

(** [Open], given the mux the package variable [defaultURLMux] points to. *)
Definition Open (defaultURLMux : URLMux DB) (urlstr : string)
    : outcome ((DB + open_error) * list (MySQLURLOpener DB * URL)) :=
  OpenMySQL (Some defaultURLMux) urlstr.

(** A run of [RegisterMySQL] calls on one mux, as the [init] functions of
    several packages make them; the first panic ends the run. *)
Fixpoint RegisterAll (mux : URLMux DB)
    (regs : list (string * option (MySQLURLOpener DB)))
    : outcome (URLMux DB) :=
  match regs with
  | [] => Done mux
  | (scheme, opener) :: regs' =>
      match RegisterMySQL mux scheme opener with
      | Done mux' => RegisterAll mux' regs'
      | Panics e => Panics e
      end
  end.

End Open.

Arguments Errorf_open_connection {url_Error} _.
Arguments mux_error {url_Error} _.
Arguments OpenMySQL {DB url_Error} _ _ _.
Arguments Open {DB url_Error} _ _ _.
Arguments RegisterAll {DB} _ _.

End MysqlOpen.

Module Names.

(** The character '/'. *)
Definition slash : Ascii.ascii := Eval cbv in Ascii.ascii_of_nat 47.

(** A string without the character '/'. *)
Fixpoint slash_free (s : string) : bool :=
  match s with
  | EmptyString => true
  | String c s' => negb (Ascii.eqb c slash) && slash_free s'
  end.

End Names.

Module Traces.

Import Runtimeconfigurator.

Definition is_RPC (e : event) : bool :=
  match e with RPC_GetVariable _ => true | _ => false end.

(** The timer is respected in an iteration: the clock read after the RPC
    is not before the expiry of the timer the iteration asked for. *)
Definition timer_respected {Val : Type} (w : watcher Val) (t : tick) : Prop :=
  (now_timer t + Z.max 0 (timerDuration w (now_timer t)) <= now_rpc t)%Z.

(** The number of RPCs in a list of events. *)
Definition count_RPC (evs : list event) : nat :=
  length (List.filter is_RPC evs).

End Traces.

Module MoreDemo.

Import Runtimeconfigurator.

(** A message with binary content [b], updated at second [sec]. *)
Definition value_at (b : list byte) (sec : Z) : pb_Variable :=
  {| pb_Name := ResourceName_String Demo.resource;
     pb_Contents := Some (Variable_Value b);
     pb_UpdateTime := Some {| Seconds := sec; Nanos := 0%Z |} |}.


(** A parser of URLs of the shape scheme://rest, enough to run [Open]:
    the text before the first ':' is the scheme, the text after "//" the
    host. *)
Definition colon : Ascii.ascii := Eval cbv in Ascii.ascii_of_nat 58.

Fixpoint split_colon (s : string) : option (string * string) :=
  match s with
  | EmptyString => None
  | String c s' =>
      if Ascii.eqb c colon then Some (EmptyString, s')
      else match split_colon s' with
           | Some (a, b) => Some (String c a, b)
           | None => None
           end
  end.

(** The text after a leading "//", if there is one. *)
Definition after_slashes (s : string) : string :=
  match s with
  | String a (String b r) =>
      if Ascii.eqb a Names.slash && Ascii.eqb b Names.slash then r else s
  | _ => s
  end.

Definition url_Parse (s : string) : Mysql.URL + string :=
  match split_colon s with
  | Some (scheme, rest) =>
      inl {| Mysql.Scheme := scheme; Mysql.Host := after_slashes rest;
             Mysql.Path := ""; Mysql.RawQuery := "" |}
  | None => inr "missing protocol scheme"
  end.

End MoreDemo.

(** * Facts *)

Import Runtimeconfigurator.

(** ** The byte comparison *)

Lemma byte_eqb_true (x y : byte) : Byte.eqb x y = true <-> x = y.
Proof.
  split; [apply Byte.byte_dec_bl | apply Byte.byte_dec_lb].
Qed.

(** The loop entered at [i] either runs to the end over equal suffixes, or
    stops at the first index [i + j] where the slices differ, after [j + 1]
    comparisons. *)
Lemma bytesNotEqual_loop_spec (a b : list byte) :
  length a = length b ->
  forall k i, (i + k = length a)%nat ->
    (drop i a = drop i b /\ bytesNotEqual_loop a b i k = Some (false, k))
    \/ (exists j, (j < k)%nat
          /\ take j (drop i a) = take j (drop i b)
          /\ a !! (i + j)%nat <> b !! (i + j)%nat
          /\ bytesNotEqual_loop a b i k = Some (true, S j)).
Proof.
  intros Hlen k. induction k as [|k IH]; intros i Hi.
  - left. split; [|reflexivity].
    rewrite !drop_ge by lia. reflexivity.
  - destruct (lookup_lt_is_Some_2 a i) as [x Hx]; [lia|].
    destruct (lookup_lt_is_Some_2 b i) as [y Hy]; [lia|].
    cbn [bytesNotEqual_loop]. rewrite Hx, Hy.
    destruct (Byte.eqb x y) eqn:E; cbn [negb].
    + apply byte_eqb_true in E. subst y.
      destruct (IH (S i)) as [[Hd Hl]|(j & Hj & Ht & Hne & Hl)]; [lia| |].
      * left. rewrite Hl. split; [|reflexivity].
        rewrite (drop_S a x i Hx), (drop_S b x i Hy). congruence.
      * right. exists (S j). rewrite Hl.
        rewrite (drop_S a x i Hx), (drop_S b x i Hy). cbn [take].
        replace (i + S j)%nat with (S i + j)%nat by lia.
        repeat split; [lia | congruence | assumption].
    + right. exists O. rewrite Nat.add_0_r, Hx, Hy.
      repeat split; [lia|].
      intros [= ->]. rewrite (proj2 (byte_eqb_true y y) eq_refl) in E.
      discriminate.
Qed.

(** [bytesNotEqual] never panics and decides inequality of the slices. *)
Lemma bytesNotEqual_decides (a b : list byte) :
  bytesNotEqual a b = Some (bool_decide (a <> b)).
Proof.
  unfold bytesNotEqual, bytesNotEqual_run.
  destruct (Nat.eqb_spec (length a) (length b)) as [Hlen|Hlen]; cbn [negb].
  - destruct (bytesNotEqual_loop_spec a b Hlen (length a) O eq_refl)
      as [[Hd Hl]|(j & Hj & Ht & Hne & Hl)]; rewrite Hl; cbn.
    + rewrite !drop_0 in Hd. rewrite bool_decide_eq_false_2; [reflexivity|].
      intros H; apply H, Hd.
    + rewrite bool_decide_eq_true_2; [reflexivity|].
      intros ->. apply Hne. reflexivity.
  - cbn. rewrite bool_decide_eq_true_2; [reflexivity|].
    intros ->. apply Hlen. reflexivity.
Qed.




(** ** The loop of [Watch] *)

Section WatchFacts.

Context {Val : Type}.
Context (ptypes_Timestamp : option Timestamp -> Time + error).

Implicit Types (w : watcher Val) (t : tick) (env : list tick).
Implicit Types (vpb : pb_Variable) (err : error).

(** The events of an iteration that reaches the RPC. *)
Local Abbreviation rpc_events w t :=
  [NewTimer (timerDuration w (now_timer t)); RPC_GetVariable (name w)].

Lemma Watch_cons_return w t env w' r ev :
  Watch_iter ptypes_Timestamp w t = (w', Return r, ev) ->
  Watch ptypes_Timestamp w (t :: env) = (w', Return r, ev).
Proof. intros H. cbn [Watch]. rewrite H. reflexivity. Qed.

Lemma Watch_cons_continue w t env w' ev :
  Watch_iter ptypes_Timestamp w t = (w', Continue, ev) ->
  Watch ptypes_Timestamp w (t :: env) =
    (let '(w'', r, ev') := Watch ptypes_Timestamp w' env in
     (w'', r, ev ++ ev')).
Proof. intros H. cbn [Watch]. rewrite H. reflexivity. Qed.

Lemma Watch_iter_cancelled w t e :
  ctx_done t = Some e ->
  Watch_iter ptypes_Timestamp w t =
    (w, Return (inr e),
     [NewTimer (timerDuration w (now_timer t)); TimerStop]).
Proof. intros H. unfold Watch_iter. rewrite H. reflexivity. Qed.

Lemma Watch_iter_bad_timestamp w t vpb err :
  ctx_done t = None ->
  GetVariable t (name w) = inl vpb ->
  parseUpdateTime ptypes_Timestamp vpb = inr err ->
  Watch_iter ptypes_Timestamp w t =
    (set_lastRPCTime w (now_rpc t), Return (inr err), rpc_events w t).
Proof.
  intros Hc Hrpc Hts. unfold Watch_iter. rewrite Hc, Hrpc, Hts. reflexivity.
Qed.

(** A fetch with a well-formed timestamp: the cache is written, and only
    then are the bytes decoded, when the watcher was deleted or the bytes
    differ from the cached ones; otherwise the loop goes round. *)
Lemma Watch_iter_fetched w t vpb ut :
  ctx_done t = None ->
  GetVariable t (name w) = inl vpb ->
  parseUpdateTime ptypes_Timestamp vpb = inl ut ->
  Watch_iter ptypes_Timestamp w t =
    (let b := bytesFromProto vpb in
     let w1 := set_lastRPCTime w (now_rpc t) in
     if isDeleted w || bool_decide (bytes w <> b)
     then (set_content w1 b ut,
           Return (match decoder w b with
                   | inl val => inl {| Value := val; UpdateTime := ut |}
                   | inr e => inr e
                   end),
           rpc_events w t)
     else (w1, Continue, rpc_events w t)).
Proof.
  intros Hc Hrpc Hts. unfold Watch_iter. rewrite Hc, Hrpc, Hts.
  cbn [set_lastRPCTime isDeleted bytes]. cbv zeta.
  change (decoder (set_content (set_lastRPCTime w (now_rpc t))
                   (bytesFromProto vpb) ut)) with (decoder w).
  destruct (isDeleted w) eqn:Hd; cbn [orb].
  - destruct (decoder w _); reflexivity.
  - rewrite bytesNotEqual_decides.
    destruct (bool_decide _); [|reflexivity].
    destruct (decoder w _); reflexivity.
Qed.

(** A failed fetch: any error but not-found is returned as it is; not-found
    is returned once, on the transition to deleted. *)
Lemma Watch_iter_failed w t err :
  ctx_done t = None ->
  GetVariable t (name w) = inr err ->
  Watch_iter ptypes_Timestamp w t =
    (let w1 := set_lastRPCTime w (now_rpc t) in
     if bool_decide (status_FromError err = (codes_NotFound, true))
     then if isDeleted w
          then (w1, Continue, rpc_events w t)
          else (set_deleted w1 (now_deleted t), Return (inr err),
                rpc_events w t)
     else (w1, Return (inr err), rpc_events w t)).
Proof.
  intros Hc Hrpc. unfold Watch_iter. rewrite Hc, Hrpc. cbv zeta.
  destruct (status_FromError err) as [code ok] eqn:Hst.
  destruct ok; cbn [negb orb].
  - destruct (N.eqb_spec code codes_NotFound) as [->|Hne]; cbn [negb].
    + rewrite bool_decide_eq_true_2 by reflexivity.
      cbn [set_lastRPCTime isDeleted]. destruct (isDeleted w); reflexivity.
    + rewrite bool_decide_eq_false_2 by congruence. reflexivity.
  - rewrite bool_decide_eq_false_2 by congruence. reflexivity.
Qed.

(** Unless the context is done, every iteration stamps [lastRPCTime]. *)
Lemma Watch_iter_lastRPCTime w t :
  ctx_done t = None ->
  lastRPCTime (fst (fst (Watch_iter ptypes_Timestamp w t))) = now_rpc t.
Proof.
  intros Hc.
  destruct (GetVariable t (name w)) as [vpb|err] eqn:Hrpc.
  - destruct (parseUpdateTime ptypes_Timestamp vpb) as [ut|e] eqn:Hts.
    + rewrite (Watch_iter_fetched w t vpb ut Hc Hrpc Hts). cbv zeta.
      destruct (_ || _); reflexivity.
    + rewrite (Watch_iter_bad_timestamp w t vpb e Hc Hrpc Hts). reflexivity.
  - rewrite (Watch_iter_failed w t err Hc Hrpc). cbv zeta.
    destruct (bool_decide _); [destruct (isDeleted w)|]; reflexivity.
Qed.

(** No iteration panics. *)
Lemma Watch_iter_no_panic w t :
  snd (fst (Watch_iter ptypes_Timestamp w t)) <> Panic.
Proof.
  destruct (ctx_done t) as [e|] eqn:Hc.
  - rewrite (Watch_iter_cancelled w t e Hc). discriminate.
  - destruct (GetVariable t (name w)) as [vpb|err] eqn:Hrpc.
    + destruct (parseUpdateTime ptypes_Timestamp vpb) as [ut|e] eqn:Hts.
      * rewrite (Watch_iter_fetched w t vpb ut Hc Hrpc Hts). cbv zeta.
        destruct (_ || _); discriminate.
      * rewrite (Watch_iter_bad_timestamp w t vpb e Hc Hrpc Hts).
        discriminate.
    + rewrite (Watch_iter_failed w t err Hc Hrpc). cbv zeta.
      destruct (bool_decide _); [destruct (isDeleted w)|]; discriminate.
Qed.

(** Every iteration starts a timer; then either the context is done and the
    timer is stopped, or the RPC is made. *)
Lemma Watch_iter_events w t :
  snd (Watch_iter ptypes_Timestamp w t) =
    NewTimer (timerDuration w (now_timer t))
    :: match ctx_done t with
       | Some _ => [TimerStop]
       | None => [RPC_GetVariable (name w)]
       end.
Proof.
  unfold Watch_iter. destruct (ctx_done t) as [e|]; [reflexivity|].
  destruct (GetVariable t (name w)) as [vpb|err].
  - destruct (parseUpdateTime ptypes_Timestamp vpb); [|reflexivity].
    destruct (if isDeleted _ then _ else _) as [[|]|]; [|reflexivity..].
    destruct (decoder _ _); reflexivity.
  - destruct (status_FromError err) as [code ok].
    destruct (negb ok || _); [reflexivity|].
    destruct (negb _); reflexivity.
Qed.

(** The events of a call begin with those of its first iteration. *)
Lemma Watch_cons_events w t env :
  exists rest,
    snd (Watch ptypes_Timestamp w (t :: env)) =
      snd (Watch_iter ptypes_Timestamp w t) ++ rest.
Proof.
  cbn [Watch].
  destruct (Watch_iter ptypes_Timestamp w t) as [[w' c] ev].
  destruct c as [r| |].
  - exists []. cbn. rewrite app_nil_r. reflexivity.
  - destruct (Watch ptypes_Timestamp w' env) as [[w2 r2] ev2].
    exists ev2. reflexivity.
  - exists []. cbn. rewrite app_nil_r. reflexivity.
Qed.

End WatchFacts.

Section WatchInversion.

Context {Val : Type}.
Context (ptypes_Timestamp : option Timestamp -> Time + error).

Implicit Types (w : watcher Val) (t : tick) (env : list tick).

(** An iteration that goes round has only stamped [lastRPCTime]. *)
Lemma Watch_iter_continue_inv w t w' ev :
  Watch_iter ptypes_Timestamp w t = (w', Continue, ev) ->
  w' = set_lastRPCTime w (now_rpc t).
Proof.
  destruct (ctx_done t) as [e|] eqn:Hc.
  { rewrite (Watch_iter_cancelled _ w t e Hc). discriminate. }
  destruct (GetVariable t (name w)) as [vpb|err] eqn:Hrpc.
  - destruct (parseUpdateTime ptypes_Timestamp vpb) as [ut|e] eqn:Hts.
    + rewrite (Watch_iter_fetched _ w t vpb ut Hc Hrpc Hts). cbv zeta.
      destruct (_ || _); [discriminate|]. congruence.
    + rewrite (Watch_iter_bad_timestamp _ w t vpb e Hc Hrpc Hts).
      discriminate.
  - rewrite (Watch_iter_failed _ w t err Hc Hrpc). cbv zeta.
    destruct (bool_decide _); [destruct (isDeleted w)|];
      [congruence | discriminate | discriminate].
Qed.

(** An iteration returns a value only from the branch that detected a
    change. *)
Lemma Watch_iter_value_inv w t w' v ev :
  Watch_iter ptypes_Timestamp w t = (w', Return (inl v), ev) ->
  exists vpb,
    GetVariable t (name w) = inl vpb
    /\ parseUpdateTime ptypes_Timestamp vpb = inl (UpdateTime v)
    /\ (isDeleted w = true \/ bytes w <> bytesFromProto vpb)
    /\ decoder w (bytesFromProto vpb) = inl (Value v)
    /\ w' = set_content (set_lastRPCTime w (now_rpc t))
              (bytesFromProto vpb) (UpdateTime v).
Proof.
  destruct (ctx_done t) as [e|] eqn:Hc.
  { rewrite (Watch_iter_cancelled _ w t e Hc). discriminate. }
  destruct (GetVariable t (name w)) as [vpb|err] eqn:Hrpc.
  - destruct (parseUpdateTime ptypes_Timestamp vpb) as [ut|e] eqn:Hts.
    + rewrite (Watch_iter_fetched _ w t vpb ut Hc Hrpc Hts). cbv zeta.
      destruct (isDeleted w) eqn:Hd; cbn [orb].
      * destruct (decoder w (bytesFromProto vpb)) as [val|e] eqn:Hdec;
          [|discriminate].
        intros [= <- <- _]. exists vpb. cbn. auto 10.
      * destruct (bool_decide_reflect (bytes w <> bytesFromProto vpb));
          [|discriminate].
        destruct (decoder w (bytesFromProto vpb)) as [val|e] eqn:Hdec;
          [|discriminate].
        intros [= <- <- _]. exists vpb. cbn. auto 10.
    + rewrite (Watch_iter_bad_timestamp _ w t vpb e Hc Hrpc Hts).
      discriminate.
  - rewrite (Watch_iter_failed _ w t err Hc Hrpc). cbv zeta.
    destruct (bool_decide _); [destruct (isDeleted w)|]; discriminate.
Qed.

(** A call of [Watch] that returns a value: the iterations before the last
    only stamped [lastRPCTime], and the last one detected a change against
    the cache the call started with. *)
Lemma Watch_value_inv env : forall w w' v ev,
  Watch ptypes_Timestamp w env = (w', Return (inl v), ev) ->
  (isDeleted w = true \/ bytes w <> bytes w')
  /\ isDeleted w' = false
  /\ decoder w (bytes w') = inl (Value v)
  /\ decoder w' = decoder w
  /\ updateTime w' = UpdateTime v.
Proof.
  induction env as [|t env IH]; intros w w' v ev; cbn [Watch].
  - discriminate.
  - destruct (Watch_iter ptypes_Timestamp w t) as [[w1 c] ev1] eqn:Hit.
    destruct c as [r| |].
    + intros [= -> -> ->].
      destruct (Watch_iter_value_inv w t w' v ev Hit)
        as (vpb & _ & _ & Hch & Hdec & ->).
      cbn. auto.
    + apply Watch_iter_continue_inv in Hit. subst w1.
      destruct (Watch ptypes_Timestamp _ env) as [[w2 r2] ev2] eqn:Hw.
      intros [= -> -> _].
      apply IH in Hw. cbn in Hw. exact Hw.
    + discriminate.
Qed.

(** Not-found answers to a watcher already marked deleted never end the
    call: the loop goes round for as long as they keep coming. *)
Lemma Watch_not_found_silent env : forall w,
  isDeleted w = true ->
  Forall (fun t => ctx_done t = None /\ exists err,
            GetVariable t (name w) = inr err
            /\ status_FromError err = (codes_NotFound, true)) env ->
  let '(w', r, _) := Watch ptypes_Timestamp w env in
  r = Continue /\ bytes w' = bytes w /\ isDeleted w' = true
  /\ updateTime w' = updateTime w.
Proof.
  induction env as [|t env IH]; intros w Hd Hall; cbn [Watch].
  - auto.
  - apply Forall_cons in Hall as [(Hc & err & Hrpc & Hst) Hall].
    rewrite (Watch_iter_failed _ w t err Hc Hrpc). cbv zeta.
    rewrite bool_decide_eq_true_2 by assumption. rewrite Hd.
    specialize (IH (set_lastRPCTime w (now_rpc t)) Hd Hall).
    destruct (Watch ptypes_Timestamp _ env) as [[w2 r2] ev2].
    exact IH.
Qed.

End WatchInversion.

(** ** Malformed data (C1) *)

(** C1, as stated, fails for a payload that does not decode: the cache is
    written before the bytes are decoded.  A watcher that holds "v1" fetches
    an empty payload, which the decoder rejects; [Watch] returns the decode
    error, and the cached bytes and update time are those of the rejected
    payload. *)
Lemma C1_counterexample_decode_error :
  let w := Demo.w_with "v1" false in
  let t := Demo.fetch 10%Z (inl (Demo.text_at "" 7%Z)) in
  Watch Demo.ptypes_Timestamp w [t] =
    (set_content (set_lastRPCTime w 11%Z) [] 7000000000%Z,
     Return (inr (plain_Error "unexpected end of input")),
     [NewTimer (600000000000 - 10)%Z;
      RPC_GetVariable "projects/p/configs/c/variables/v"])
  /\ bytes w = [x76; x31]
  /\ updateTime w = 5%Z.
Proof. cbv zeta. split; [reflexivity|]. split; reflexivity. Qed.

Section MalformedData.

Context {Val : Type}.
Context (ptypes_Timestamp : option Timestamp -> Time + error).

(** C1, amended: on a successful fetch whose timestamp is malformed, [Watch]
    returns the parse error and leaves [bytes], [updateTime] and [isDeleted]
    as they were, so the next well-formed fetch is compared with the state
    from before the error.  On a successful fetch whose bytes fail to decode,
    [Watch] returns the decode error only when the watcher was deleted or the
    bytes differ from the cached ones, and the cache has then already been
    overwritten: [bytes] are the fetched bytes, [updateTime] the fetched
    timestamp, and [isDeleted] is cleared.  When the undecodable bytes equal
    the cached ones and the watcher is not deleted, nothing is decoded and
    the loop goes round. *)
Theorem C1_malformed_data_and_the_cache
    (w : watcher Val) (t : tick) (env : list tick) (vpb : pb_Variable) :
  ctx_done t = None ->
  GetVariable t (name w) = inl vpb ->
  (forall err, parseUpdateTime ptypes_Timestamp vpb = inr err ->
     let w1 := set_lastRPCTime w (now_rpc t) in
     Watch ptypes_Timestamp w (t :: env) =
       (w1, Return (inr err),
        [NewTimer (timerDuration w (now_timer t)); RPC_GetVariable (name w)])
     /\ bytes w1 = bytes w /\ updateTime w1 = updateTime w
     /\ isDeleted w1 = isDeleted w
     /\ forall t2 env2 vpb2 ut2,
          ctx_done t2 = None ->
          GetVariable t2 (name w) = inl vpb2 ->
          parseUpdateTime ptypes_Timestamp vpb2 = inl ut2 ->
          bytes w <> bytesFromProto vpb2 ->
          fst (Watch ptypes_Timestamp w1 (t2 :: env2)) =
            (set_content (set_lastRPCTime w (now_rpc t2))
               (bytesFromProto vpb2) ut2,
             Return (match decoder w (bytesFromProto vpb2) with
                     | inl val => inl {| Value := val; UpdateTime := ut2 |}
                     | inr e => inr e
                     end)))
  /\ (forall ut err,
        parseUpdateTime ptypes_Timestamp vpb = inl ut ->
        decoder w (bytesFromProto vpb) = inr err ->
        Watch ptypes_Timestamp w (t :: env) =
          (let w1 := set_lastRPCTime w (now_rpc t) in
           let ev := [NewTimer (timerDuration w (now_timer t));
                      RPC_GetVariable (name w)] in
           if isDeleted w || bool_decide (bytes w <> bytesFromProto vpb)
           then (set_content w1 (bytesFromProto vpb) ut, Return (inr err), ev)
           else let '(w2, r, ev') := Watch ptypes_Timestamp w1 env in
                (w2, r, ev ++ ev'))).
Proof.
  intros Hc Hrpc. split.
  - intros err Hts. cbv zeta.
    split; [|split; [|split; [|split]]]; try reflexivity.
    + apply Watch_cons_return.
      apply (Watch_iter_bad_timestamp _ w t vpb err Hc Hrpc Hts).
    + intros t2 env2 vpb2 ut2 Hc2 Hrpc2 Hts2 Hne.
      cbn [Watch].
      rewrite (Watch_iter_fetched _ (set_lastRPCTime w (now_rpc t)) t2 vpb2 ut2
                 Hc2 Hrpc2 Hts2).
      cbv zeta. cbn [set_lastRPCTime isDeleted bytes decoder].
      rewrite (bool_decide_eq_true_2 _ Hne), orb_true_r. reflexivity.
  - intros ut err Hts Hdec. cbv zeta.
    destruct (isDeleted w || bool_decide (bytes w <> bytesFromProto vpb))
      eqn:Hch.
    + apply Watch_cons_return.
      rewrite (Watch_iter_fetched _ w t vpb ut Hc Hrpc Hts). cbv zeta.
      rewrite Hch, Hdec. reflexivity.
    + apply Watch_cons_continue.
      rewrite (Watch_iter_fetched _ w t vpb ut Hc Hrpc Hts). cbv zeta.
      rewrite Hch. reflexivity.
Qed.

End MalformedData.

Lemma C1_witness_bad_timestamp :
  let w := Demo.w_with "v1" false in
  let t := Demo.fetch 10%Z (inl (Demo.text_bad_time "v2")) in
  Watch Demo.ptypes_Timestamp w [t] =
    (set_lastRPCTime w 11%Z,
     Return (inr (Errorf_invalid_timestamp "projects/p/configs/c/variables/v"
                    (plain_Error "timestamp: nanos not in range [0, 1e9)"))),
     [NewTimer (timerDuration w 10%Z);
      RPC_GetVariable "projects/p/configs/c/variables/v"]).
Proof.
  cbv zeta.
  exact (proj1 (proj1 (C1_malformed_data_and_the_cache Demo.ptypes_Timestamp
           (Demo.w_with "v1" false)
           (Demo.fetch 10%Z (inl (Demo.text_bad_time "v2"))) []
           (Demo.text_bad_time "v2") eq_refl eq_refl) _ eq_refl)).
Defined.

(** ** Cached bytes and the deleted flag (C2) *)


Section DeletedFlag.

Context {Val : Type}.
Context (ptypes_Timestamp : option Timestamp -> Time + error).


End DeletedFlag.

(** ** No repeated values (C4) *)

Section NoRepeat.

Context {Val : Type}.
Context (ptypes_Timestamp : option Timestamp -> Time + error).


End NoRepeat.


(** ** Deletion and recovery (C5, C6) and other errors (C9) *)

Section Deletion.

Context {Val : Type}.
Context (ptypes_Timestamp : option Timestamp -> Time + error).

(** C5: when the fetch fails with not-found, a watcher not yet marked
    deleted sets [isDeleted], sets [updateTime] to the current time and
    returns the not-found error; a watcher already marked deleted returns
    nothing and goes round the loop.  After the transition, not-found answers
    are absorbed for as long as they keep coming, so it is reported once. *)
Theorem C5_not_found_is_reported_once
    (w : watcher Val) (t : tick) (env : list tick) (err : error) :
  ctx_done t = None ->
  GetVariable t (name w) = inr err ->
  status_FromError err = (codes_NotFound, true) ->
  (isDeleted w = false ->
     let w1 := set_deleted (set_lastRPCTime w (now_rpc t)) (now_deleted t) in
     Watch ptypes_Timestamp w (t :: env) =
       (w1, Return (inr err),
        [NewTimer (timerDuration w (now_timer t)); RPC_GetVariable (name w)])
     /\ isDeleted w1 = true
     /\ updateTime w1 = now_deleted t
     /\ bytes w1 = bytes w
     /\ forall env2,
          Forall (fun t2 => ctx_done t2 = None /\ exists err2,
                    GetVariable t2 (name w) = inr err2
                    /\ status_FromError err2 = (codes_NotFound, true)) env2 ->
          snd (fst (Watch ptypes_Timestamp w1 env2)) = Continue)
  /\ (isDeleted w = true ->
        Watch_iter ptypes_Timestamp w t =
          (set_lastRPCTime w (now_rpc t), Continue,
           [NewTimer (timerDuration w (now_timer t));
            RPC_GetVariable (name w)])
        /\ Watch ptypes_Timestamp w (t :: env) =
             (let '(w2, r, ev') :=
                Watch ptypes_Timestamp (set_lastRPCTime w (now_rpc t)) env in
              (w2, r,
               [NewTimer (timerDuration w (now_timer t));
                RPC_GetVariable (name w)] ++ ev'))).
Proof.
  intros Hc Hrpc Hst.
  pose proof (Watch_iter_failed ptypes_Timestamp w t err Hc Hrpc) as Hit.
  cbv zeta in Hit. rewrite (bool_decide_eq_true_2 _ Hst) in Hit.
  split; intros Hd; rewrite Hd in Hit.
  - cbv zeta. split; [|split; [|split; [|split]]]; try reflexivity.
    + apply Watch_cons_return. exact Hit.
    + intros env2 Hall.
      pose proof (Watch_not_found_silent ptypes_Timestamp env2
                    (set_deleted (set_lastRPCTime w (now_rpc t))
                       (now_deleted t)) eq_refl Hall) as Hs.
      destruct (Watch ptypes_Timestamp _ env2) as [[w2 r2] ev2].
      cbn. apply Hs.
  - split; [exact Hit|]. apply Watch_cons_continue. exact Hit.
Qed.


(** C9: a fetch error that is not a not-found status, an error with no
    status at all included, is returned at once with [bytes], [isDeleted]
    and [updateTime] untouched; and every iteration that reaches the RPC
    stamps [lastRPCTime] with the time just after it, whatever the RPC
    answered. *)
Theorem C9_other_errors_change_nothing
    (w : watcher Val) (t : tick) (env : list tick) :
  ctx_done t = None ->
  (forall err,
     GetVariable t (name w) = inr err ->
     snd (status_FromError err) = false
       \/ fst (status_FromError err) <> codes_NotFound ->
     let w1 := set_lastRPCTime w (now_rpc t) in
     Watch ptypes_Timestamp w (t :: env) =
       (w1, Return (inr err),
        [NewTimer (timerDuration w (now_timer t)); RPC_GetVariable (name w)])
     /\ bytes w1 = bytes w
     /\ isDeleted w1 = isDeleted w
     /\ updateTime w1 = updateTime w)
  /\ lastRPCTime (fst (fst (Watch_iter ptypes_Timestamp w t))) = now_rpc t
  /\ In (RPC_GetVariable (name w))
        (snd (Watch_iter ptypes_Timestamp w t)).
Proof.
  intros Hc. split; [|split].
  - intros err Hrpc Hst. cbv zeta.
    split; [|split; [|split]]; try reflexivity.
    apply Watch_cons_return.
    rewrite (Watch_iter_failed _ w t err Hc Hrpc). cbv zeta.
    rewrite bool_decide_eq_false_2; [reflexivity|].
    intros E. rewrite E in Hst. cbn in Hst.
    destruct Hst as [Hst|Hst]; [discriminate | apply Hst; reflexivity].
  - apply Watch_iter_lastRPCTime. exact Hc.
  - rewrite Watch_iter_events, Hc. cbn. auto.
Qed.

End Deletion.

Lemma C5_witness_first_not_found :
  let w := Demo.w_with "v1" false in
  let t := Demo.fetch 10%Z (inr Demo.not_found) in
  Watch Demo.ptypes_Timestamp w [t] =
    (set_deleted (set_lastRPCTime w 11%Z) 12%Z,
     Return (inr Demo.not_found),
     [NewTimer (timerDuration w 10%Z);
      RPC_GetVariable "projects/p/configs/c/variables/v"]).
Proof.
  cbv zeta.
  exact (proj1 (proj1 (C5_not_found_is_reported_once Demo.ptypes_Timestamp
           (Demo.w_with "v1" false)
           (Demo.fetch 10%Z (inr Demo.not_found)) []
           Demo.not_found eq_refl eq_refl eq_refl) eq_refl)).
Defined.


Lemma C9_witness_unavailable :
  let w := Demo.w_with "v1" false in
  let t := Demo.fetch 10%Z (inr Demo.unavailable) in
  Watch Demo.ptypes_Timestamp w [t] =
    (set_lastRPCTime w 11%Z, Return (inr Demo.unavailable),
     [NewTimer (timerDuration w 10%Z);
      RPC_GetVariable "projects/p/configs/c/variables/v"]).
Proof.
  cbv zeta.
  refine (proj1 (proj1 (C9_other_errors_change_nothing Demo.ptypes_Timestamp
           (Demo.w_with "v1" false)
           (Demo.fetch 10%Z (inr Demo.unavailable)) [] eq_refl)
           Demo.unavailable eq_refl _)).
  right. cbn. discriminate.
Defined.

(** ** Construction (C7, C8) *)

Lemma wrap64_small (z : Z) : is_int64 z -> wrap64 z = z.
Proof.
  unfold is_int64, minDuration, maxDuration, wrap64. intros H.
  rewrite Z.mod_small; lia.
Qed.

Lemma defaultWaitTimeout_value : defaultWaitTimeout = 600000000000%Z.
Proof. reflexivity. Qed.

Section Construction.

Context {Val TargetType runtimevar_Decode : Type}.
Context (JSONDecode : runtimevar_Decode).
Context (NewDecoder :
  TargetType -> runtimevar_Decode -> (list byte -> Val + error)).
Context (ptypes_Timestamp : option Timestamp -> Time + error).

(** What [NewVariable] does with the option [WaitTime]. *)
Lemma NewVariable_inv now rn tt opts w :
  NewVariable JSONDecode NewDecoder now rn tt opts = inl w ->
  let wt := match opts with Some o => WaitTime o | None => 0%Z end in
  waitTime w = (if (wt =? 0)%Z then defaultWaitTimeout else wt)
  /\ (0 <= wt)%Z
  /\ lastRPCTime w = Time_Add now (Duration_mul (-1)%Z (waitTime w))
  /\ bytes w = [] /\ isDeleted w = false.
Proof.
  unfold NewVariable. cbv zeta.
  destruct opts as [o|]; cbn [WaitTime].
  - destruct (Z.eqb_spec (WaitTime o) 0) as [E|E].
    + intros [= <-]. cbn. rewrite E. auto with zarith.
    + destruct (Z.ltb_spec (WaitTime o) 0); [discriminate|].
      intros [= <-]. cbn. auto.
  - cbn. intros [= <-]. cbn. auto with zarith.
Qed.

(** C7: a negative [WaitTime] makes [NewVariable] return an error and no
    watcher; a zero [WaitTime], or no options at all, gives a watcher whose
    wait time is the default of 10 minutes; a positive one is kept. *)
Theorem C7_NewVariable_WaitTime
    (now : Time) (rn : ResourceName) (tt : TargetType) :
  (forall o, (WaitTime o < 0)%Z ->
     NewVariable JSONDecode NewDecoder now rn tt (Some o)
       = inr (Errorf_negative_WaitTime (WaitTime o)))
  /\ (forall o, WaitTime o = 0%Z ->
        exists w, NewVariable JSONDecode NewDecoder now rn tt (Some o) = inl w
                  /\ waitTime w = defaultWaitTimeout)
  /\ (exists w, NewVariable JSONDecode NewDecoder now rn tt None = inl w
                /\ waitTime w = defaultWaitTimeout)
  /\ (forall o, (0 < WaitTime o)%Z ->
        exists w, NewVariable JSONDecode NewDecoder now rn tt (Some o) = inl w
                  /\ waitTime w = WaitTime o)
  /\ defaultWaitTimeout = (10 * (60 * 1000000000))%Z.
Proof.
  split; [|split; [|split; [|split]]].
  - intros o Hneg. unfold NewVariable. cbv zeta.
    destruct (Z.eqb_spec (WaitTime o) 0); [lia|].
    destruct (Z.ltb_spec (WaitTime o) 0); [reflexivity|lia].
  - intros o Hz. unfold NewVariable. cbv zeta. rewrite Hz.
    cbn. eexists. split; reflexivity.
  - unfold NewVariable. cbn. eexists. split; reflexivity.
  - intros o Hpos. unfold NewVariable. cbv zeta.
    destruct (Z.eqb_spec (WaitTime o) 0); [lia|].
    destruct (Z.ltb_spec (WaitTime o) 0); [lia|].
    eexists. split; reflexivity.
  - reflexivity.
Qed.

(** C8: the watcher [NewVariable] builds at time [now] has [lastRPCTime]
    equal to [now] minus its wait time.  With the clock not running
    backwards, the first iteration of the first [Watch] asks for a timer of
    non-positive duration, which is less than the wait time; such a timer
    fires at once, and when the select takes it the RPC is the next event. *)
Theorem C8_first_Watch_does_not_wait
    (now : Time) (rn : ResourceName) (tt : TargetType)
    (opts : option (WatchOptions runtimevar_Decode)) (w : watcher Val)
    (t : tick) (env : list tick) :
  match opts with Some o => is_int64 (WaitTime o) | None => True end ->
  NewVariable JSONDecode NewDecoder now rn tt opts = inl w ->
  (now <= now_timer t)%Z ->
  lastRPCTime w = (now - waitTime w)%Z
  /\ (timerDuration w (now_timer t) <= 0 < waitTime w)%Z
  /\ (exists evs,
        snd (Watch ptypes_Timestamp w (t :: env))
          = NewTimer (timerDuration w (now_timer t)) :: evs
        /\ (ctx_done t = None ->
            exists evs', evs = RPC_GetVariable (name w) :: evs')).
Proof.
  intros Hint Hnew Hclock.
  destruct (NewVariable_inv now rn tt opts w Hnew) as (Hwt & Hnn & Hl & _).
  cbv zeta in Hwt, Hnn.
  assert (Hrange : (0 < waitTime w <= maxDuration)%Z).
  { rewrite Hwt. destruct opts as [o|].
    - destruct (Z.eqb_spec (WaitTime o) 0) as [E|E].
      + rewrite defaultWaitTimeout_value. unfold maxDuration. lia.
      + unfold is_int64 in Hint. lia.
    - cbn. rewrite defaultWaitTimeout_value. unfold maxDuration. lia. }
  assert (Hlast : lastRPCTime w = (now - waitTime w)%Z).
  { rewrite Hl. unfold Time_Add, Duration_mul.
    rewrite wrap64_small; [lia|].
    unfold is_int64, minDuration, maxDuration in *. lia. }
  assert (Hd : (timerDuration w (now_timer t) <= 0)%Z).
  { unfold timerDuration, Duration_sub, Time_Sub. rewrite Hlast.
    unfold minDuration, maxDuration in *.
    destruct (Z.ltb_spec (now_timer t - (now - waitTime w)) (- 2 ^ 63));
      [lia|].
    destruct (Z.ltb_spec (2 ^ 63 - 1) (now_timer t - (now - waitTime w))).
    - rewrite wrap64_small;
        unfold is_int64, minDuration, maxDuration; lia.
    - rewrite wrap64_small;
        unfold is_int64, minDuration, maxDuration; lia. }
  split; [exact Hlast|]. split; [lia|].
  destruct (Watch_cons_events ptypes_Timestamp w t env) as [rest Hev].
  rewrite Hev, Watch_iter_events.
  destruct (ctx_done t) as [e|].
  - eexists. split; [reflexivity|]. discriminate.
  - eexists. split; [reflexivity|]. intros _. eexists. reflexivity.
Qed.

End Construction.

Lemma C8_witness_default_wait :
  lastRPCTime Demo.w_new = (1000 - 600000000000)%Z
  /\ (timerDuration Demo.w_new 1500%Z <= 0 < waitTime Demo.w_new)%Z.
Proof.
  pose proof (C8_first_Watch_does_not_wait
                Demo.decode_nonempty Demo.NewDecoder Demo.ptypes_Timestamp
                1000%Z Demo.resource tt None Demo.w_new
                (Demo.fetch 1500%Z (inl (Demo.text_at "v1" 7%Z))) []
                I eq_refl) as H.
  destruct H as (H1 & H2 & _).
  - cbn. lia.
  - split; [exact H1 | exact H2].
Defined.

Lemma C7_witness_negative_WaitTime :
  NewVariable Demo.decode_nonempty Demo.NewDecoder 1000%Z Demo.resource tt
    (Some {| WaitTime := (-1)%Z; Decode := None |})
  = inr (Errorf_negative_WaitTime (-1)%Z).
Proof.
  apply (proj1 (C7_NewVariable_WaitTime Demo.decode_nonempty Demo.NewDecoder
                  1000%Z Demo.resource tt)
           {| WaitTime := (-1)%Z; Decode := None |}).
  cbn. lia.
Defined.

(** ** The URL mux (C10) *)

Section MuxFacts.

Import Mysql.

Context {DB : Type}.

Implicit Types (mux : option (URLMux DB)) (u : URL).

(** A scheme that is not a key of the map, or a key bound to the nil
    opener, reads as the nil opener. *)
Lemma map_index_unregistered
    (tbl : gmap string (option (MySQLURLOpener DB))) (k : string) :
  tbl !! k = None \/ tbl !! k = Some None ->
  map_index (Some tbl) k = None.
Proof. intros [H|H]; cbn; rewrite H; reflexivity. Qed.

(** C10: for every URL, [OpenMySQLURL] does not panic.  It returns an error,
    and calls no opener, when the scheme is empty, when the mux is nil, when
    the map of schemes is nil, and when the scheme is not registered (or is
    registered with a nil opener).  Whenever an opener is called, it is the
    one registered for the scheme of the URL, it is called once with that
    URL, and its result is the result of the call. *)
Theorem C10_OpenMySQLURL_dispatch mux u :
  (exists r calls, OpenMySQLURL mux (Some u) = Done (r, calls))
  /\ (Scheme u = "" ->
        OpenMySQLURL mux (Some u) = Done (inr (Errorf_no_scheme u), []))
  /\ (Scheme u <> "" ->
        OpenMySQLURL (DB := DB) None (Some u)
          = Done (inr (Errorf_no_provider u (Scheme u)), []))
  /\ (forall m, mux = Some m -> Scheme u <> "" ->
        schemes m = None
        \/ (exists tbl, schemes m = Some tbl
              /\ (tbl !! Scheme u = None \/ tbl !! Scheme u = Some None)) ->
        OpenMySQLURL mux (Some u)
          = Done (inr (Errorf_no_provider u (Scheme u)), []))
  /\ (forall r calls o u',
        OpenMySQLURL mux (Some u) = Done (r, calls) ->
        In (o, u') calls ->
        u' = u /\ Scheme u <> "" /\ calls = [(o, u)]
        /\ r = opener_OpenMySQLURL o u
        /\ exists m tbl, mux = Some m /\ schemes m = Some tbl
                         /\ tbl !! Scheme u = Some (Some o)).
Proof.
  unfold OpenMySQLURL.
  destruct (String.eqb_spec (Scheme u) "") as [He|Hne].
  - split; [eauto|]. split; [reflexivity|].
    split; [intros H; contradiction|].
    split; [intros m _ H; contradiction|].
    intros r calls o u' [= <- <-] [].
  - split.
    { destruct mux as [m|]; [|eauto].
      destruct (map_index (schemes m) (Scheme u)); eauto. }
    split; [intros H; contradiction|].
    split; [reflexivity|].
    split.
    { intros m -> _ [Hnil|(tbl & Htbl & Hk)].
      - rewrite Hnil. reflexivity.
      - rewrite Htbl, (map_index_unregistered tbl _ Hk). reflexivity. }
    intros r calls o u' Hres Hin.
    destruct mux as [m|]; [|injection Hres as <- <-; destruct Hin].
    destruct (schemes m) as [tbl|] eqn:Htbl;
      [|injection Hres as <- <-; destruct Hin].
    cbn [map_index] in Hres.
    destruct (tbl !! Scheme u) as [[o'|]|] eqn:Hk.
    + injection Hres as <- <-.
      destruct Hin as [[= <- <-]|[]].
      repeat split; try assumption. eauto.
    + injection Hres as <- <-. destruct Hin.
    + injection Hres as <- <-. destruct Hin.
Qed.

End MuxFacts.

Lemma C10_witness_unregistered_scheme :
  Mysql.OpenMySQLURL (Some MysqlDemo.defaultURLMux)
    (Some MysqlDemo.postgres_url)
  = Mysql.Done
      (inr (Mysql.Errorf_no_provider MysqlDemo.postgres_url "postgres"), []).
Proof.
  refine (proj1 (proj2 (proj2 (proj2 (C10_OpenMySQLURL_dispatch
            (Some MysqlDemo.defaultURLMux) MysqlDemo.postgres_url))))
            MysqlDemo.defaultURLMux eq_refl _ _).
  - discriminate.
  - right. eexists. split; [reflexivity|]. left. reflexivity.
Defined.

(** ** The model on concrete runs *)

(** The scenario of the specification: "v1" is returned, "v1" again is not,
    "v2" is. *)
Example run_v1_v1_v2 :
  let after_v1 :=
    fst (fst (Watch Demo.ptypes_Timestamp Demo.w_new
                [Demo.fetch 1000%Z (inl (Demo.text_at "v1" 1%Z))])) in
  snd (fst (Watch Demo.ptypes_Timestamp Demo.w_new
              [Demo.fetch 1000%Z (inl (Demo.text_at "v1" 1%Z))]))
    = Return (inl {| Value := [x76; x31]; UpdateTime := 1000000000%Z |})
  /\ snd (fst (Watch Demo.ptypes_Timestamp after_v1
                 [Demo.fetch 2000%Z (inl (Demo.text_at "v1" 1%Z));
                  Demo.fetch 3000%Z (inl (Demo.text_at "v2" 2%Z))]))
       = Return (inl {| Value := [x76; x32]; UpdateTime := 2000000000%Z |}).
Proof. cbv zeta. split; reflexivity. Qed.

(** Not-found first, not-found again, then "v1". *)
Example run_not_found_twice_then_v1 :
  let after_nf :=
    fst (fst (Watch Demo.ptypes_Timestamp Demo.w_new
                [Demo.fetch 1000%Z (inr Demo.not_found)])) in
  snd (fst (Watch Demo.ptypes_Timestamp Demo.w_new
              [Demo.fetch 1000%Z (inr Demo.not_found)]))
    = Return (inr Demo.not_found)
  /\ snd (fst (Watch Demo.ptypes_Timestamp after_nf
                 [Demo.fetch 2000%Z (inr Demo.not_found)]))
       = Continue
  /\ snd (fst (Watch Demo.ptypes_Timestamp after_nf
                 [Demo.fetch 2000%Z (inr Demo.not_found);
                  Demo.fetch 3000%Z (inl (Demo.text_at "v1" 2%Z))]))
       = Return (inl {| Value := [x76; x31]; UpdateTime := 2000000000%Z |}).
Proof. cbv zeta. repeat split; reflexivity. Qed.

(** A context that is done before the timer: no RPC is made. *)
Example run_cancelled :
  Watch Demo.ptypes_Timestamp (Demo.w_with "v1" false) [Demo.cancelled 10%Z]
  = (Demo.w_with "v1" false, Return (inr context_Canceled),
     [NewTimer (600000000000 - 10)%Z; TimerStop]).
Proof. reflexivity. Qed.

(** [init] registers the opener of the package under "mysql"; registering
    the scheme again panics; a "mysql" URL is handed to the opener. *)
Example run_init :
  Mysql.init string MysqlDemo.OpenDB MysqlDemo.URL_String
    = Mysql.Done MysqlDemo.defaultURLMux
  /\ Mysql.RegisterMySQL MysqlDemo.defaultURLMux "mysql" None
       = Mysql.Panics (Some (Mysql.Errorf_already_registered "mysql"))
  /\ Mysql.OpenMySQLURL (Some MysqlDemo.defaultURLMux)
       (Some MysqlDemo.mysql_url)
       = Mysql.Done (inl "mysql://localhost/db",
                     [(MysqlDemo.opener, MysqlDemo.mysql_url)])
  /\ Mysql.OpenMySQLURL (Some MysqlDemo.defaultURLMux)
       (Some MysqlDemo.relative_url)
       = Mysql.Done (inr (Mysql.Errorf_no_scheme MysqlDemo.relative_url), []).
Proof. repeat split; reflexivity. Qed.

(** * Further properties of the code *)

(** ** [bytesNotEqual] does not depend on the order of its arguments *)

Lemma byte_eqb_sym (x y : byte) : Byte.eqb x y = Byte.eqb y x.
Proof.
  destruct (Byte.eqb x y) eqn:E1, (Byte.eqb y x) eqn:E2; try reflexivity.
  - apply byte_eqb_true in E1. subst y.
    rewrite (proj2 (byte_eqb_true x x) eq_refl) in E2. discriminate.
  - apply byte_eqb_true in E2. subst y.
    rewrite (proj2 (byte_eqb_true x x) eq_refl) in E1. discriminate.
Qed.

Lemma bytesNotEqual_loop_sym (a b : list byte) : forall k i,
  bytesNotEqual_loop a b i k = bytesNotEqual_loop b a i k.
Proof.
  induction k as [|k IH]; intros i; cbn [bytesNotEqual_loop]; [reflexivity|].
  destruct (a !! i) as [x|], (b !! i) as [y|]; try reflexivity.
  rewrite (byte_eqb_sym x y), IH. reflexivity.
Qed.

(** X1: swapping the two slices changes neither the answer of
    [bytesNotEqual] nor the number of bytes it compares. *)
Theorem X1_bytesNotEqual_symmetric (a b : list byte) :
  bytesNotEqual_run a b = bytesNotEqual_run b a
  /\ bytesNotEqual a b = bytesNotEqual b a.
Proof.
  assert (H : bytesNotEqual_run a b = bytesNotEqual_run b a).
  { unfold bytesNotEqual_run. rewrite (Nat.eqb_sym (length b) (length a)).
    destruct (Nat.eqb_spec (length a) (length b)) as [E|E]; cbn [negb].
    - rewrite E. apply bytesNotEqual_loop_sym.
    - reflexivity. }
  split; [exact H|]. unfold bytesNotEqual. rewrite H. reflexivity.
Qed.

(** ** What a call of [Watch] keeps and what it does *)

Section WatchCalls.

Context {Val : Type}.
Context (ptypes_Timestamp : option Timestamp -> Time + error).

Implicit Types (w : watcher Val) (t : tick) (env : list tick).

(** An iteration returns an error only from one of five places. *)
Lemma Watch_iter_error_inv w t w' e ev :
  Watch_iter ptypes_Timestamp w t = (w', Return (inr e), ev) ->
  (ctx_done t = Some e /\ w' = w)
  \/ (ctx_done t = None /\
      ((GetVariable t (name w) = inr e
        /\ bytes w' = bytes w /\ decoder w' = decoder w)
       \/ (exists vpb cause,
             GetVariable t (name w) = inl vpb
             /\ ptypes_Timestamp (pb_UpdateTime vpb) = inr cause
             /\ e = Errorf_invalid_timestamp (pb_Name vpb) cause
             /\ w' = set_lastRPCTime w (now_rpc t))
       \/ (exists vpb ut,
             GetVariable t (name w) = inl vpb
             /\ parseUpdateTime ptypes_Timestamp vpb = inl ut
             /\ decoder w (bytesFromProto vpb) = inr e
             /\ w' = set_content (set_lastRPCTime w (now_rpc t))
                       (bytesFromProto vpb) ut))).
Proof.
  destruct (ctx_done t) as [e0|] eqn:Hc.
  { rewrite (Watch_iter_cancelled _ w t e0 Hc). intros [= <- <- _]. auto. }
  intros Hit. right. split; [reflexivity|]. revert Hit.
  destruct (GetVariable t (name w)) as [vpb|err] eqn:Hrpc.
  - destruct (parseUpdateTime ptypes_Timestamp vpb) as [ut|e1] eqn:Hts.
    + rewrite (Watch_iter_fetched _ w t vpb ut Hc Hrpc Hts). cbv zeta.
      destruct (_ || _); [|discriminate].
      destruct (decoder w (bytesFromProto vpb)) as [val|e1] eqn:Hdec;
        [discriminate|].
      intros [= <- <- _]. right; right. exists vpb, ut. auto.
    + rewrite (Watch_iter_bad_timestamp _ w t vpb e1 Hc Hrpc Hts).
      intros [= <- <- _]. right; left.
      unfold parseUpdateTime in Hts.
      destruct (ptypes_Timestamp (pb_UpdateTime vpb)) as [ut|cause] eqn:Hp;
        [discriminate|].
      injection Hts as <-. exists vpb, cause. auto.
  - rewrite (Watch_iter_failed _ w t err Hc Hrpc). cbv zeta.
    destruct (bool_decide _); [destruct (isDeleted w); [discriminate|]|];
      intros [= <- <- _]; left; auto.
Qed.

(** The configuration of a watcher is the same after every iteration. *)
Lemma Watch_iter_config w t :
  let w' := fst (fst (Watch_iter ptypes_Timestamp w t)) in
  waitTime w' = waitTime w /\ name w' = name w /\ decoder w' = decoder w.
Proof.
  cbv zeta.
  destruct (ctx_done t) as [e|] eqn:Hc.
  { rewrite (Watch_iter_cancelled _ w t e Hc). auto. }
  destruct (GetVariable t (name w)) as [vpb|err] eqn:Hrpc.
  - destruct (parseUpdateTime ptypes_Timestamp vpb) as [ut|e] eqn:Hts.
    + rewrite (Watch_iter_fetched _ w t vpb ut Hc Hrpc Hts). cbv zeta.
      destruct (_ || _); cbn; auto.
    + rewrite (Watch_iter_bad_timestamp _ w t vpb e Hc Hrpc Hts). cbn. auto.
  - rewrite (Watch_iter_failed _ w t err Hc Hrpc). cbv zeta.
    destruct (bool_decide _); [destruct (isDeleted w)|]; cbn; auto.
Qed.

Lemma Watch_config w env :
  let w' := fst (fst (Watch ptypes_Timestamp w env)) in
  waitTime w' = waitTime w /\ name w' = name w /\ decoder w' = decoder w.
Proof.
  cbv zeta. revert w. induction env as [|t env IH]; intros w; cbn [Watch].
  - auto.
  - pose proof (Watch_iter_config w t) as Hc. cbv zeta in Hc.
    destruct (Watch_iter ptypes_Timestamp w t) as [[w1 c] ev1].
    cbn in Hc. destruct c as [r| |]; cbn; [exact Hc| |exact Hc].
    specialize (IH w1).
    destruct (Watch ptypes_Timestamp w1 env) as [[w2 r2] ev2].
    cbn in IH |- *. destruct Hc as (H1 & H2 & H3), IH as (I1 & I2 & I3).
    repeat split; congruence.
Qed.

Lemma iterations_config w env :
  let w' := iterations ptypes_Timestamp w env in
  waitTime w' = waitTime w /\ name w' = name w /\ decoder w' = decoder w.
Proof.
  cbv zeta. unfold iterations. revert w.
  induction env as [|t env IH]; intros w; cbn [fold_left].
  - auto.
  - pose proof (Watch_iter_config w t) as Hc. cbv zeta in Hc.
    destruct (IH (fst (fst (Watch_iter ptypes_Timestamp w t))))
      as (I1 & I2 & I3).
    destruct Hc as (H1 & H2 & H3). repeat split; congruence.
Qed.

(** X2: a call of [Watch], however many times it goes round the loop and
    however it ends, leaves the wait time, the variable name and the decoder
    of the watcher as they were; so does any run of iterations. *)
Theorem X2_Watch_keeps_the_configuration w env :
  (let w' := fst (fst (Watch ptypes_Timestamp w env)) in
   waitTime w' = waitTime w /\ name w' = name w /\ decoder w' = decoder w)
  /\ (let w' := iterations ptypes_Timestamp w env in
      waitTime w' = waitTime w /\ name w' = name w /\ decoder w' = decoder w).
Proof. split; [apply Watch_config | apply iterations_config]. Qed.

(** X3: every RPC a call of [Watch] makes asks for the watcher's own
    variable name, and the call makes at most one RPC per iteration. *)
Theorem X3_Watch_requests_its_own_name w env :
  (forall n, In (RPC_GetVariable n) (snd (Watch ptypes_Timestamp w env)) ->
     n = name w)
  /\ (Traces.count_RPC (snd (Watch ptypes_Timestamp w env)) <= length env)%nat.
Proof.
  unfold Traces.count_RPC.
  revert w. induction env as [|t env IH]; intros w; cbn [Watch].
  - split; [intros n []|]. cbn. lia.
  - pose proof (Watch_iter_events ptypes_Timestamp w t) as Hev.
    pose proof (Watch_iter_config w t) as Hc. cbv zeta in Hc.
    destruct (Watch_iter ptypes_Timestamp w t) as [[w1 c] ev1].
    cbn in Hev, Hc. destruct Hc as (_ & Hn & _).
    assert (H1 : forall n, In (RPC_GetVariable n) ev1 -> n = name w).
    { intros n Hin. rewrite Hev in Hin.
      destruct Hin as [[=]|Hin].
      destruct (ctx_done t); destruct Hin as [[=]|[]]; congruence. }
    assert (H2 : (length (List.filter Traces.is_RPC ev1) <= 1)%nat).
    { rewrite Hev. destruct (ctx_done t); cbn; lia. }
    destruct c as [r| |]; cbn [snd length].
    + split; [exact H1|lia].
    + destruct (IH w1) as [IH1 IH2]. rewrite Hn in IH1.
      destruct (Watch ptypes_Timestamp w1 env) as [[w2 r2] ev2].
      cbn [snd] in *. split.
      * intros n Hin. apply in_app_or in Hin as [Hin|Hin]; auto.
      * rewrite List.filter_app, List.length_app. lia.
    + split; [exact H1|lia].
Qed.

End WatchCalls.

Section WatchOutcomes.

Context {Val : Type}.
Context (ptypes_Timestamp : option Timestamp -> Time + error).

Implicit Types (w : watcher Val) (t : tick) (env : list tick).

(** X4: the timer is stopped only when the context is done.  A call of
    [Watch] whose events contain [TimerStop] returned the error of the
    context, made no RPC in its last iteration ([TimerStop] is the last
    event), and left [bytes], [isDeleted] and [updateTime] as the call found
    them. *)
Theorem X4_timer_stopped_only_on_cancellation w env w' r ev :
  Watch ptypes_Timestamp w env = (w', r, ev) ->
  In TimerStop ev ->
  (exists t e, In t env /\ ctx_done t = Some e /\ r = Return (inr e))
  /\ (exists ev0, ev = ev0 ++ [TimerStop])
  /\ bytes w' = bytes w /\ isDeleted w' = isDeleted w
  /\ updateTime w' = updateTime w.
Proof.
  revert w w' r ev. induction env as [|t env IH]; intros w w' r ev; cbn [Watch].
  - intros [= <- <- <-] [].
  - pose proof (Watch_iter_events ptypes_Timestamp w t) as Hev.
    destruct (Watch_iter ptypes_Timestamp w t) as [[w1 c] ev1] eqn:Hit.
    cbn [snd] in Hev.
    destruct (ctx_done t) as [e|] eqn:Hc.
    + rewrite (Watch_iter_cancelled _ w t e Hc) in Hit.
      injection Hit as <- <- <-. intros [= <- <- <-] _.
      split; [exists t, e; cbn; auto|].
      split; [eexists [NewTimer _]; reflexivity|]. auto.
    + destruct c as [r1| |].
      * intros [= <- <- <-] Hin. rewrite Hev in Hin.
        destruct Hin as [[=]|[[=]|[]]].
      * apply Watch_iter_continue_inv in Hit. subst w1.
        destruct (Watch ptypes_Timestamp _ env) as [[w2 r2] ev2] eqn:Hw.
        intros [= <- <- <-] Hin.
        apply in_app_or in Hin as [Hin|Hin].
        { rewrite Hev in Hin. destruct Hin as [[=]|[[=]|[]]]. }
        destruct (IH _ _ _ _ Hw Hin)
          as ((t' & e & Ht & Hd & Hr) & (ev0 & Hev0) & Hb & Hdel & Hu).
        split; [exists t', e; cbn; auto|].
        split; [exists (ev1 ++ ev0); rewrite Hev0, app_assoc; reflexivity|].
        cbn in Hb, Hdel, Hu. auto.
      * intros [= <- <- <-] Hin. rewrite Hev in Hin.
        destruct Hin as [[=]|[[=]|[]]].
Qed.

(** X5: no call of [Watch] panics, whatever the service answers: the byte
    comparison never indexes a slice out of range. *)
Theorem X5_Watch_never_panics w env :
  snd (fst (Watch ptypes_Timestamp w env)) <> Panic.
Proof.
  revert w. induction env as [|t env IH]; intros w; cbn [Watch].
  - discriminate.
  - pose proof (Watch_iter_no_panic ptypes_Timestamp w t) as Hnp.
    destruct (Watch_iter ptypes_Timestamp w t) as [[w1 c] ev1].
    cbn in Hnp. destruct c as [r| |]; [discriminate| |contradiction].
    specialize (IH w1).
    destruct (Watch ptypes_Timestamp w1 env) as [[w2 r2] ev2].
    exact IH.
Qed.

(** X6: a value returned by [Watch] is the decoding of the content of a
    message the service sent in answer to the watcher's name, with the
    timestamp of that message; the watcher now caches those bytes and that
    timestamp, is not marked deleted, and recorded the time of that RPC. *)
Theorem X6_returned_value_comes_from_a_message w env w' v ev :
  Watch ptypes_Timestamp w env = (w', Return (inl v), ev) ->
  exists t vpb,
    In t env
    /\ GetVariable t (name w) = inl vpb
    /\ parseUpdateTime ptypes_Timestamp vpb = inl (UpdateTime v)
    /\ decoder w (bytesFromProto vpb) = inl (Value v)
    /\ bytes w' = bytesFromProto vpb
    /\ updateTime w' = UpdateTime v
    /\ isDeleted w' = false
    /\ lastRPCTime w' = now_rpc t.
Proof.
  revert w w' v ev. induction env as [|t env IH]; intros w w' v ev; cbn [Watch].
  - discriminate.
  - destruct (Watch_iter ptypes_Timestamp w t) as [[w1 c] ev1] eqn:Hit.
    destruct c as [r| |].
    + intros [= -> -> ->].
      destruct (Watch_iter_value_inv _ w t w' v ev Hit)
        as (vpb & Hrpc & Hts & _ & Hdec & ->).
      exists t, vpb. cbn. auto 10.
    + apply Watch_iter_continue_inv in Hit. subst w1.
      destruct (Watch ptypes_Timestamp _ env) as [[w2 r2] ev2] eqn:Hw.
      intros [= -> -> _].
      destruct (IH _ _ _ _ Hw) as (t' & vpb & Hin & H).
      exists t', vpb. cbn in H. cbn. auto.
    + discriminate.
Qed.

(** X7: [Watch] invents no error.  An error it returns is the error of the
    context, or the error of the RPC as it came, or the error of
    [ptypes.Timestamp] wrapped with the name in the message, or the error of
    the decoder on the fetched bytes. *)
Theorem X7_returned_error_has_a_source w env w' e ev :
  Watch ptypes_Timestamp w env = (w', Return (inr e), ev) ->
  exists t, In t env /\
    (ctx_done t = Some e
     \/ GetVariable t (name w) = inr e
     \/ (exists vpb cause,
           GetVariable t (name w) = inl vpb
           /\ ptypes_Timestamp (pb_UpdateTime vpb) = inr cause
           /\ e = Errorf_invalid_timestamp (pb_Name vpb) cause)
     \/ (exists vpb,
           GetVariable t (name w) = inl vpb
           /\ decoder w (bytesFromProto vpb) = inr e)).
Proof.
  revert w w' e ev. induction env as [|t env IH]; intros w w' e ev; cbn [Watch].
  - discriminate.
  - destruct (Watch_iter ptypes_Timestamp w t) as [[w1 c] ev1] eqn:Hit.
    destruct c as [r| |].
    + intros [= -> -> ->]. exists t. split; [cbn; auto|].
      destruct (Watch_iter_error_inv _ w t w' e ev Hit)
        as [[Hc _]|[_ [[Hrpc _]|[(vpb & cause & Hrpc & Hp & He & _)
                                 |(vpb & ut & Hrpc & _ & Hdec & _)]]]];
        eauto 10.
    + apply Watch_iter_continue_inv in Hit. subst w1.
      destruct (Watch ptypes_Timestamp _ env) as [[w2 r2] ev2] eqn:Hw.
      intros [= -> -> _].
      destruct (IH _ _ _ _ Hw) as (t' & Hin & H).
      exists t'. split; [cbn; auto|]. exact H.
    + discriminate.
Qed.

(** X8: deletion is reported again after a recovery.  When a call of
    [Watch] has returned a value and the next call meets not-found in its
    first iteration, that call returns the not-found error and marks the
    watcher deleted, keeping the bytes of the value. *)
Theorem X8_deletion_after_a_value_is_reported
    w env w1 v ev t env2 err :
  Watch ptypes_Timestamp w env = (w1, Return (inl v), ev) ->
  ctx_done t = None ->
  GetVariable t (name w) = inr err ->
  status_FromError err = (codes_NotFound, true) ->
  Watch ptypes_Timestamp w1 (t :: env2) =
    (set_deleted (set_lastRPCTime w1 (now_rpc t)) (now_deleted t),
     Return (inr err),
     [NewTimer (timerDuration w1 (now_timer t)); RPC_GetVariable (name w)]).
Proof.
  intros Hw Hc Hrpc Hst.
  destruct (Watch_value_inv _ env w w1 v ev Hw) as (_ & Hd & _).
  pose proof (Watch_config ptypes_Timestamp w env) as Hcfg.
  cbv zeta in Hcfg. rewrite Hw in Hcfg. cbn in Hcfg.
  destruct Hcfg as (_ & Hn & _).
  apply Watch_cons_return.
  rewrite <- Hn in Hrpc.
  rewrite (Watch_iter_failed _ w1 t err Hc Hrpc). cbv zeta.
  rewrite (bool_decide_eq_true_2 _ Hst), Hd, Hn. reflexivity.
Qed.

End WatchOutcomes.

Lemma X4_witness_cancelled_after_one_round :
  let w := Demo.w_with "v1" false in
  let env := [Demo.fetch 10%Z (inl (Demo.text_at "v1" 9%Z));
              Demo.cancelled 20%Z] in
  In TimerStop (snd (Watch Demo.ptypes_Timestamp w env))
  /\ bytes (fst (fst (Watch Demo.ptypes_Timestamp w env))) = bytes w.
Proof.
  cbv zeta.
  assert (Hin : In TimerStop
            (snd (Watch Demo.ptypes_Timestamp (Demo.w_with "v1" false)
                    [Demo.fetch 10%Z (inl (Demo.text_at "v1" 9%Z));
                     Demo.cancelled 20%Z]))).
  { cbn. auto 10. }
  split; [exact Hin|].
  exact (proj1 (proj2 (proj2
    (X4_timer_stopped_only_on_cancellation Demo.ptypes_Timestamp
       (Demo.w_with "v1" false)
       [Demo.fetch 10%Z (inl (Demo.text_at "v1" 9%Z)); Demo.cancelled 20%Z]
       _ _ _ eq_refl Hin)))).
Defined.

Lemma X6_witness_v2_after_v1 :
  let w := Demo.w_with "v1" false in
  let env := [Demo.fetch 10%Z (inl (Demo.text_at "v1" 9%Z));
              Demo.fetch 20%Z (inl (Demo.text_at "v2" 15%Z))] in
  exists t vpb,
    In t env
    /\ GetVariable t (name w) = inl vpb
    /\ parseUpdateTime Demo.ptypes_Timestamp vpb = inl 15000000000%Z
    /\ decoder w (bytesFromProto vpb) = inl [x76; x32]
    /\ bytes (fst (fst (Watch Demo.ptypes_Timestamp w env)))
         = bytesFromProto vpb
    /\ updateTime (fst (fst (Watch Demo.ptypes_Timestamp w env)))
         = 15000000000%Z
    /\ isDeleted (fst (fst (Watch Demo.ptypes_Timestamp w env))) = false
    /\ lastRPCTime (fst (fst (Watch Demo.ptypes_Timestamp w env)))
         = now_rpc t.
Proof.
  cbv zeta.
  exact (X6_returned_value_comes_from_a_message Demo.ptypes_Timestamp
           (Demo.w_with "v1" false)
           [Demo.fetch 10%Z (inl (Demo.text_at "v1" 9%Z));
            Demo.fetch 20%Z (inl (Demo.text_at "v2" 15%Z))]
           _ {| Value := [x76; x32]; UpdateTime := 15000000000%Z |} _
           eq_refl).
Defined.

Lemma X7_witness_bad_timestamp :
  let w := Demo.w_with "v1" false in
  let env := [Demo.fetch 10%Z (inl (Demo.text_bad_time "v2"))] in
  let e := Errorf_invalid_timestamp "projects/p/configs/c/variables/v"
             (plain_Error "timestamp: nanos not in range [0, 1e9)") in
  exists t, In t env /\
    (ctx_done t = Some e
     \/ GetVariable t (name w) = inr e
     \/ (exists vpb cause,
           GetVariable t (name w) = inl vpb
           /\ Demo.ptypes_Timestamp (pb_UpdateTime vpb) = inr cause
           /\ e = Errorf_invalid_timestamp (pb_Name vpb) cause)
     \/ (exists vpb,
           GetVariable t (name w) = inl vpb
           /\ decoder w (bytesFromProto vpb) = inr e)).
Proof.
  cbv zeta.
  exact (X7_returned_error_has_a_source Demo.ptypes_Timestamp
           (Demo.w_with "v1" false)
           [Demo.fetch 10%Z (inl (Demo.text_bad_time "v2"))]
           _ _ _ eq_refl).
Defined.

Lemma X8_witness_v1_then_not_found :
  let w := Demo.w_new in
  let w1 := fst (fst (Watch Demo.ptypes_Timestamp w
                        [Demo.fetch 1000%Z (inl (Demo.text_at "v1" 1%Z))])) in
  let t := Demo.fetch 2000%Z (inr Demo.not_found) in
  Watch Demo.ptypes_Timestamp w1 [t] =
    (set_deleted (set_lastRPCTime w1 2001%Z) 2002%Z,
     Return (inr Demo.not_found),
     [NewTimer (timerDuration w1 2000%Z); RPC_GetVariable (name w)]).
Proof.
  cbv zeta.
  exact (X8_deletion_after_a_value_is_reported Demo.ptypes_Timestamp
           Demo.w_new [Demo.fetch 1000%Z (inl (Demo.text_at "v1" 1%Z))]
           _ {| Value := [x76; x31]; UpdateTime := 1000000000%Z |} _
           (Demo.fetch 2000%Z (inr Demo.not_found)) []
           Demo.not_found eq_refl eq_refl eq_refl eq_refl).
Defined.

(** ** The timer *)

Lemma timerDuration_expiry {Val : Type} (w : watcher Val) (now : Time) :
  (0 <= waitTime w <= maxDuration)%Z ->
  (lastRPCTime w <= now)%Z ->
  let d := timerDuration w now in
  (d <= waitTime w)%Z
  /\ (lastRPCTime w + waitTime w <= now + Z.max 0 d)%Z
  /\ ((now - lastRPCTime w <= waitTime w)%Z ->
      (now + d = lastRPCTime w + waitTime w)%Z)
  /\ ((waitTime w <= now - lastRPCTime w)%Z -> (d <= 0)%Z).
Proof.
  intros Hwt Hclock. cbv zeta.
  unfold timerDuration, Duration_sub, Time_Sub.
  unfold maxDuration, minDuration in *.
  destruct (Z.ltb_spec (now - lastRPCTime w) (- 2 ^ 63)); [lia|].
  destruct (Z.ltb_spec (2 ^ 63 - 1) (now - lastRPCTime w)).
  - rewrite wrap64_small
      by (unfold is_int64, minDuration, maxDuration; lia). lia.
  - rewrite wrap64_small
      by (unfold is_int64, minDuration, maxDuration; lia). lia.
Qed.

(** X9: the timer paces the RPCs.  With a wait time in [0, maxDuration] and
    a clock that has not gone back since the last RPC, the duration given to
    the timer is never more than the wait time, a timer of that duration
    expires no sooner than one wait time after the last RPC, and exactly
    then when less than a wait time has passed; once a wait time has passed
    the duration is not positive. *)
Theorem X9_timer_paces_the_RPCs {Val : Type} (w : watcher Val) (now : Time) :
  (0 <= waitTime w <= maxDuration)%Z ->
  (lastRPCTime w <= now)%Z ->
  let d := timerDuration w now in
  (d <= waitTime w)%Z
  /\ (lastRPCTime w + waitTime w <= now + Z.max 0 d)%Z
  /\ ((now - lastRPCTime w <= waitTime w)%Z ->
      (now + d = lastRPCTime w + waitTime w)%Z)
  /\ ((waitTime w <= now - lastRPCTime w)%Z -> (d <= 0)%Z).
Proof. exact (timerDuration_expiry w now). Qed.

Lemma X9_witness_half_way :
  (timerDuration (Demo.w_with "v1" false) 200000000000 <= 600000000000)%Z
  /\ (200000000000 + timerDuration (Demo.w_with "v1" false) 200000000000
      = 0 + 600000000000)%Z.
Proof.
  pose proof (X9_timer_paces_the_RPCs (Demo.w_with "v1" false)
                200000000000%Z) as H.
  cbv zeta in H.
  destruct H as (H1 & _ & H3 & _).
  - cbn. unfold maxDuration. lia.
  - cbn. lia.
  - split; [exact H1|]. apply H3. cbn. lia.
Defined.

(** ** Payloads and fresh watchers *)

Section Payloads.

Context {Val : Type}.
Context (ptypes_Timestamp : option Timestamp -> Time + error).

(** X10: an iteration looks at a fetched message only through its name, its
    timestamp and the bytes [bytesFromProto] extracts.  Two answers that
    agree on these, such as a text payload and a binary payload of the same
    bytes, lead to the same state, result and events. *)
Theorem X10_text_and_binary_payloads_are_alike
    (w : watcher Val) (t1 t2 : tick) (vpb1 vpb2 : pb_Variable) :
  now_timer t1 = now_timer t2 ->
  ctx_done t1 = ctx_done t2 ->
  now_rpc t1 = now_rpc t2 ->
  now_deleted t1 = now_deleted t2 ->
  GetVariable t1 (name w) = inl vpb1 ->
  GetVariable t2 (name w) = inl vpb2 ->
  pb_Name vpb1 = pb_Name vpb2 ->
  pb_UpdateTime vpb1 = pb_UpdateTime vpb2 ->
  bytesFromProto vpb1 = bytesFromProto vpb2 ->
  Watch_iter ptypes_Timestamp w t1 = Watch_iter ptypes_Timestamp w t2.
Proof.
  intros H1 H2 H3 H4 Hr1 Hr2 Hn Hu Hb.
  unfold Watch_iter, parseUpdateTime.
  rewrite H1, H2, H3, Hr1, Hr2, Hn, Hu, Hb. reflexivity.
Qed.

End Payloads.

Lemma X10_witness_text_and_binary :
  let w := Demo.w_with "v1" false in
  Watch_iter Demo.ptypes_Timestamp w
    (Demo.fetch 10%Z (inl (Demo.text_at "v2" 9%Z)))
  = Watch_iter Demo.ptypes_Timestamp w
      (Demo.fetch 10%Z (inl (MoreDemo.value_at [x76; x32] 9%Z))).
Proof.
  cbv zeta.
  exact (X10_text_and_binary_payloads_are_alike Demo.ptypes_Timestamp
           (Demo.w_with "v1" false)
           (Demo.fetch 10%Z (inl (Demo.text_at "v2" 9%Z)))
           (Demo.fetch 10%Z (inl (MoreDemo.value_at [x76; x32] 9%Z)))
           (Demo.text_at "v2" 9%Z) (MoreDemo.value_at [x76; x32] 9%Z)
           eq_refl eq_refl eq_refl eq_refl eq_refl eq_refl
           eq_refl eq_refl eq_refl).
Defined.

Section FreshWatcher.

Context {Val TargetType runtimevar_Decode : Type}.
Context (JSONDecode : runtimevar_Decode).
Context (NewDecoder :
  TargetType -> runtimevar_Decode -> (list byte -> Val + error)).
Context (ptypes_Timestamp : option Timestamp -> Time + error).


End FreshWatcher.


(** ** Resource names *)

Lemma append_slash_inj (p1 p2 r1 r2 : string) :
  Names.slash_free p1 = true ->
  Names.slash_free p2 = true ->
  p1 +:+ String Names.slash r1 = p2 +:+ String Names.slash r2 ->
  p1 = p2 /\ r1 = r2.
Proof.
  revert p2. induction p1 as [|c p1 IH]; intros [|c' p2] H1 H2 H; cbn in *.
  - injection H as ->. auto.
  - injection H as <- _. cbn in H2. discriminate.
  - injection H as -> _. cbn in H1. discriminate.
  - injection H as -> H.
    apply andb_prop in H1 as [_ H1]. apply andb_prop in H2 as [_ H2].
    destruct (IH p2 H1 H2 H) as [-> ->]. auto.
Qed.

Lemma append_inj_l (s a b : string) : s +:+ a = s +:+ b -> a = b.
Proof.
  induction s as [|c s IH]; cbn; [auto|]. intros [= H]. auto.
Qed.

(** X12: [ResourceName.String] tells resource names apart as long as the
    project and the configuration contain no '/': two such names with the
    same path are the same name. *)
Theorem X12_ResourceName_String_injective (r1 r2 : ResourceName) :
  Names.slash_free (ProjectID r1) = true ->
  Names.slash_free (ProjectID r2) = true ->
  Names.slash_free (Config r1) = true ->
  Names.slash_free (Config r2) = true ->
  ResourceName_String r1 = ResourceName_String r2 ->
  r1 = r2.
Proof.
  destruct r1 as [p1 c1 v1], r2 as [p2 c2 v2]. cbn [ProjectID Config].
  intros Hp1 Hp2 Hc1 Hc2 H. unfold ResourceName_String in H.
  cbn [ProjectID Config Variable_] in H.
  apply append_inj_l in H.
  apply (append_slash_inj p1 p2
           ("configs/" +:+ c1 +:+ "/variables/" +:+ v1)
           ("configs/" +:+ c2 +:+ "/variables/" +:+ v2) Hp1 Hp2) in H
    as [-> H].
  apply append_inj_l in H.
  apply (append_slash_inj c1 c2
           ("variables/" +:+ v1) ("variables/" +:+ v2) Hc1 Hc2) in H
    as [-> H].
  apply append_inj_l in H. subst. reflexivity.
Qed.

Lemma X12_witness_same_path :
  {| ProjectID := "p"; Config := "c"; Variable_ := "v" |} = Demo.resource.
Proof.
  exact (X12_ResourceName_String_injective
           {| ProjectID := "p"; Config := "c"; Variable_ := "v" |}
           Demo.resource eq_refl eq_refl eq_refl eq_refl eq_refl).
Defined.

(** With a '/' in the project or the configuration, different names can
    have the same path. *)
Example ResourceName_String_collision :
  ResourceName_String
    {| ProjectID := "a"; Config := "b/configs/c"; Variable_ := "v" |}
  = ResourceName_String
      {| ProjectID := "a/configs/b"; Config := "c"; Variable_ := "v" |}.
Proof. reflexivity. Qed.

(** ** Registering and opening on the mux *)

Section Registration.

Import Mysql MysqlOpen.

Context {DB : Type}.

Implicit Types (m : URLMux DB) (o : option (MySQLURLOpener DB)) (u : URL).

(** A scheme is registered when it is a key of the map, whatever opener,
    nil or not, it is bound to. *)
Local Abbreviation registered m s :=
  (exists tbl, schemes m = Some tbl /\ is_Some (tbl !! s)).

(** What a completed registration did to the mux. *)
Lemma RegisterMySQL_Done_inv m s o m' :
  RegisterMySQL m s o = Done m' ->
  ~ registered m s
  /\ (exists tbl', schemes m' = Some tbl' /\ tbl' !! s = Some o)
  /\ map_index (schemes m') s = o
  /\ (forall s', s' <> s ->
        map_index (schemes m') s' = map_index (schemes m) s'
        /\ (registered m' s' <-> registered m s')).
Proof.
  unfold RegisterMySQL. destruct (schemes m) as [tbl|] eqn:Htbl.
  - destruct (tbl !! s) as [x|] eqn:Hs; [discriminate|].
    intros [= <-]. cbn. split; [|split; [|split]].
    + intros (tbl0 & [= <-] & [x Hx]). congruence.
    + eexists. split; [reflexivity|]. apply lookup_insert_eq.
    + rewrite lookup_insert_eq. reflexivity.
    + intros s' Hne. rewrite lookup_insert_ne by congruence.
      split; [reflexivity|]. split.
      * intros (tbl0 & [= <-] & Hx). rewrite lookup_insert_ne in Hx
          by congruence. eauto.
      * intros (tbl0 & [= <-] & Hx). eexists. split; [reflexivity|].
        rewrite lookup_insert_ne by congruence. exact Hx.
  - intros [= <-]. cbn. split; [|split; [|split]].
    + intros (tbl0 & [=] & _).
    + eexists. split; [reflexivity|]. apply lookup_insert_eq.
    + rewrite lookup_insert_eq. reflexivity.
    + intros s' Hne. rewrite lookup_insert_ne by congruence.
      rewrite lookup_empty. split; [reflexivity|]. split.
      * intros (tbl0 & [= <-] & [x Hx]).
        rewrite lookup_insert_ne, lookup_empty in Hx by congruence.
        discriminate.
      * intros (tbl0 & [=] & _).
Qed.

(** Registration fails exactly on a scheme that is registered. *)
Lemma RegisterMySQL_registered m s o :
  registered m s ->
  RegisterMySQL m s o = Panics (Some (Errorf_already_registered s)).
Proof.
  intros (tbl & Htbl & [x Hx]). unfold RegisterMySQL.
  rewrite Htbl, Hx. reflexivity.
Qed.

Lemma RegisterMySQL_fresh m s o :
  ~ registered m s -> exists m', RegisterMySQL m s o = Done m'.
Proof.
  intros Hn. unfold RegisterMySQL. destruct (schemes m) as [tbl|] eqn:Htbl.
  - destruct (tbl !! s) as [x|] eqn:Hs; [|eauto].
    exfalso. apply Hn. eauto.
  - eauto.
Qed.

(** X13: register, then open.  After [RegisterMySQL] has registered an
    opener under a non-empty scheme, [OpenMySQLURL] on a URL of that scheme
    calls that opener, once, with the URL, and returns its result; URLs of
    every other scheme are treated as before the registration. *)
Theorem X13_register_then_open m s (opener : MySQLURLOpener DB) m' u :
  RegisterMySQL m s (Some opener) = Done m' ->
  (Scheme u = s -> s <> "" ->
     OpenMySQLURL (Some m') (Some u)
       = Done (opener_OpenMySQLURL opener u, [(opener, u)]))
  /\ (Scheme u <> s ->
        OpenMySQLURL (Some m') (Some u) = OpenMySQLURL (Some m) (Some u)).
Proof.
  intros Hreg.
  destruct (RegisterMySQL_Done_inv m s _ m' Hreg) as (_ & _ & Hs & Hother).
  unfold OpenMySQLURL. split.
  - intros <- Hne.
    destruct (String.eqb_spec (Scheme u) ""); [contradiction|].
    rewrite Hs. reflexivity.
  - intros Hne. destruct (String.eqb (Scheme u) ""); [reflexivity|].
    rewrite (proj1 (Hother (Scheme u) Hne)). reflexivity.
Qed.

(** X14: a scheme is registered once.  After a registration under a scheme
    has completed, every further registration under that scheme panics with
    "already registered", whatever the openers are.  This holds when the
    first opener was nil too: the scheme then has no provider, and cannot be
    given one. *)
Theorem X14_second_registration_panics m s o m' :
  RegisterMySQL m s o = Done m' ->
  (forall o', RegisterMySQL m' s o'
                = Panics (Some (Errorf_already_registered s)))
  /\ (o = None -> forall u, Scheme u = s -> s <> "" ->
        OpenMySQLURL (Some m') (Some u)
          = Done (inr (Errorf_no_provider u s), []))
  /\ map_index (schemes m) s = None.
Proof.
  intros Hreg.
  destruct (RegisterMySQL_Done_inv m s o m' Hreg)
    as (Hfresh & (tbl' & Htbl' & Hs') & Hs & _).
  split; [|split].
  - intros o'. apply RegisterMySQL_registered.
    exists tbl'. rewrite Hs'. eauto.
  - intros -> u <- Hne. unfold OpenMySQLURL.
    destruct (String.eqb_spec (Scheme u) ""); [contradiction|].
    rewrite Hs. reflexivity.
  - destruct (schemes m) as [tbl|] eqn:Htbl; [|reflexivity].
    cbn. destruct (tbl !! s) as [x|] eqn:Hx; [|reflexivity].
    exfalso. apply Hfresh. eauto.
Qed.

(** A run of registrations from a mux on which none of the schemes is
    registered yet. *)
Lemma RegisterAll_NoDup regs : forall m,
  NoDup (map fst regs) ->
  (forall s, In s (map fst regs) -> ~ registered m s) ->
  exists m',
    RegisterAll m regs = Done m'
    /\ (forall s o, In (s, o) regs -> map_index (schemes m') s = o)
    /\ (forall s, ~ In s (map fst regs) ->
          map_index (schemes m') s = map_index (schemes m) s
          /\ (registered m' s <-> registered m s)).
Proof.
  induction regs as [|[s o] regs IH]; intros m Hnd Hfresh; cbn [RegisterAll].
  - exists m. split; [reflexivity|]. split; [intros s o []|]. tauto.
  - cbn [map fst] in Hnd, Hfresh. apply NoDup_cons in Hnd as [Hs Hnd].
    rewrite list_elem_of_In in Hs.
    destruct (RegisterMySQL_fresh m s o) as [m1 Hm1]; [apply Hfresh; cbn; auto|].
    rewrite Hm1.
    destruct (RegisterMySQL_Done_inv m s o m1 Hm1) as (_ & _ & Hso & Hother).
    destruct (IH m1 Hnd) as (m' & Hrun & Hin & Hout).
    { intros s' Hs' Hreg. assert (s' <> s) by congruence.
      apply (Hfresh s'); [cbn; auto|]. apply (Hother s'); assumption. }
    exists m'. split; [exact Hrun|]. split.
    + intros s' o' [[= <- <-]|Hin']; [|auto].
      rewrite (proj1 (Hout s Hs)). exact Hso.
    + intros s' Hs'. cbn in Hs'.
      assert (s' <> s) by (intros ->; apply Hs'; auto).
      assert (~ In s' (map fst regs)) as Hni by tauto.
      destruct (Hout s' Hni) as [E1 E2]. destruct (Hother s') as [E3 E4];
        [assumption|].
      split; [congruence | tauto].
Qed.

(** A run of registrations that completes registered distinct schemes. *)
Lemma RegisterAll_Done_NoDup regs : forall m m',
  RegisterAll m regs = Done m' ->
  NoDup (map fst regs)
  /\ (forall s, In s (map fst regs) -> ~ registered m s).
Proof.
  induction regs as [|[s o] regs IH]; intros m m'; cbn [RegisterAll].
  - intros _. split; [constructor|intros s []].
  - destruct (RegisterMySQL m s o) as [m1|e] eqn:Hm1; [|discriminate].
    intros Hrun. destruct (IH m1 m' Hrun) as [Hnd Hfresh].
    destruct (RegisterMySQL_Done_inv m s o m1 Hm1)
      as (Hs & (tbl' & Htbl' & Hs') & _ & Hother).
    assert (Hnotin : ~ In s (map fst regs)).
    { intros Hin. apply (Hfresh s Hin). exists tbl'. rewrite Hs'. eauto. }
    cbn [map fst]. split.
    + apply NoDup_cons. rewrite list_elem_of_In. auto.
    + intros s' [<-|Hin]; [exact Hs|].
      assert (s' <> s) by congruence.
      intros Hreg. apply (Hfresh s' Hin). apply (Hother s'); assumption.
Qed.

(** X15: a run of registrations on a new mux completes exactly when the
    schemes are pairwise distinct (otherwise it panics), and then every
    scheme reads back the opener it was registered with and every other
    scheme reads as the nil opener: no registration overwrites another. *)
Theorem X15_registrations_never_overwrite
    (regs : list (string * option (MySQLURLOpener DB))) :
  ((exists m', RegisterAll zero_URLMux regs = Done m')
     <-> NoDup (map fst regs))
  /\ (forall m', RegisterAll zero_URLMux regs = Done m' ->
        (forall s o, In (s, o) regs -> map_index (schemes m') s = o)
        /\ (forall s, ~ In s (map fst regs) ->
              map_index (schemes m') s = None)).
Proof.
  assert (Hzero : forall s : string,
            ~ registered (zero_URLMux (DB := DB)) s).
  { intros s (tbl & [=] & _). }
  split.
  - split.
    + intros [m' Hrun]. apply (RegisterAll_Done_NoDup regs _ m' Hrun).
    + intros Hnd.
      destruct (RegisterAll_NoDup regs zero_URLMux Hnd) as (m' & Hrun & _);
        eauto.
  - intros m' Hrun.
    destruct (RegisterAll_Done_NoDup regs _ m' Hrun) as [Hnd _].
    destruct (RegisterAll_NoDup regs zero_URLMux Hnd) as (m2 & Hrun2 & H1 & H2);
      [auto|].
    rewrite Hrun in Hrun2. injection Hrun2 as <-.
    split; [exact H1|]. intros s Hs. apply (H2 s Hs).
Qed.

End Registration.

Lemma X13_witness_mysql_scheme :
  Mysql.OpenMySQLURL (Some MysqlDemo.defaultURLMux)
    (Some MysqlDemo.mysql_url)
  = Mysql.Done (inl "mysql://localhost/db",
                [(MysqlDemo.opener, MysqlDemo.mysql_url)]).
Proof.
  refine (proj1 (X13_register_then_open Mysql.zero_URLMux "mysql"
                   MysqlDemo.opener MysqlDemo.defaultURLMux
                   MysqlDemo.mysql_url eq_refl) eq_refl _).
  discriminate.
Defined.

Lemma X14_witness_mysql_twice :
  Mysql.RegisterMySQL MysqlDemo.defaultURLMux "mysql" (Some MysqlDemo.opener)
  = Mysql.Panics (Some (Mysql.Errorf_already_registered "mysql")).
Proof.
  exact (proj1 (X14_second_registration_panics Mysql.zero_URLMux "mysql"
                  (Some MysqlDemo.opener) MysqlDemo.defaultURLMux eq_refl)
           (Some MysqlDemo.opener)).
Defined.

(** ** [Open] *)

Section OpenFacts.

Import Mysql MysqlOpen.

Context {DB url_Error : Type}.
Context (url_Parse : string -> URL + url_Error).
Context (sql_OpenDB : connector -> DB).
Context (URL_String : URL -> string).

(** X16: [Open] once [init] has run.  [init] does not panic, and on the mux
    it leaves, [Open] never panics: a string that does not parse gives the
    parse error wrapped as "open connection", with no opener called; a URL
    with no scheme or with a scheme other than "mysql" gives an error, with
    no opener called; a URL of scheme "mysql" is handed to the opener of the
    package, which never fails: the result is the handle [sql.OpenDB] makes
    from the string of the URL. *)
Theorem X16_Open_after_init :
  exists m,
    init DB sql_OpenDB URL_String = Done m
    /\ forall urlstr,
         Open url_Parse m urlstr =
           match url_Parse urlstr with
           | inr err => Done (inr (Errorf_open_connection err), [])
           | inl u =>
               if String.eqb (Scheme u) "" then
                 Done (inr (mux_error (Errorf_no_scheme u)), [])
               else if String.eqb (Scheme u) mysql_Scheme then
                 Done (inl (sql_OpenDB {| dsn := URL_String u |}),
                       [(URLOpener DB sql_OpenDB URL_String, u)])
               else
                 Done (inr (mux_error (Errorf_no_provider u (Scheme u))), [])
           end.
Proof.
  eexists. split; [reflexivity|].
  intros urlstr. unfold Open, OpenMySQL.
  destruct (url_Parse urlstr) as [u|err]; [|reflexivity].
  unfold OpenMySQLURL.
  destruct (String.eqb (Scheme u) ""); [reflexivity|].
  cbn [schemes map_index zero_URLMux].
  destruct (String.eqb_spec (Scheme u) mysql_Scheme) as [E|E].
  - rewrite E, lookup_insert_eq. reflexivity.
  - rewrite lookup_insert_ne by congruence. rewrite lookup_empty.
    reflexivity.
Qed.

End OpenFacts.

(** [Open] on concrete strings, with the demonstration parser. *)
Example run_Open :
  MysqlOpen.Open MoreDemo.url_Parse MysqlDemo.defaultURLMux "mysql://host/db"
    = Mysql.Done (inl "mysql://host/db",
                  [(MysqlDemo.opener,
                    {| Mysql.Scheme := "mysql"; Mysql.Host := "host/db";
                       Mysql.Path := ""; Mysql.RawQuery := "" |})])
  /\ MysqlOpen.Open MoreDemo.url_Parse MysqlDemo.defaultURLMux "no scheme"
       = Mysql.Done
           (inr (MysqlOpen.Errorf_open_connection "missing protocol scheme"),
            []).
Proof. split; reflexivity. Qed.

(** ** The rate of RPCs *)

Section Rate.

Context {Val : Type}.
Context (ptypes_Timestamp : option Timestamp -> Time + error).

(** X17: RPCs are at least a wait time apart.  With a wait time in
    [0, maxDuration], a clock that has not gone back since the last RPC and
    a timer that is respected, an iteration that reaches the RPC stamps a
    [lastRPCTime] that is at least one wait time after the previous one,
    whatever the RPC answers; the wait time itself is unchanged, so the same
    holds for the next iteration. *)
Theorem X17_RPCs_are_a_wait_time_apart (w : watcher Val) (t : tick) :
  (0 <= waitTime w <= maxDuration)%Z ->
  (lastRPCTime w <= now_timer t)%Z ->
  ctx_done t = None ->
  Traces.timer_respected w t ->
  let w' := fst (fst (Watch_iter ptypes_Timestamp w t)) in
  (lastRPCTime w + waitTime w <= lastRPCTime w')%Z
  /\ waitTime w' = waitTime w.
Proof.
  intros Hwt Hclock Hc Htimer. cbv zeta.
  rewrite (Watch_iter_lastRPCTime ptypes_Timestamp w t Hc).
  destruct (timerDuration_expiry w (now_timer t) Hwt Hclock) as (_ & H & _).
  unfold Traces.timer_respected in Htimer.
  split; [lia|]. apply (Watch_iter_config ptypes_Timestamp w t).
Qed.

End Rate.

Lemma X17_witness_ten_minutes :
  let w := Demo.w_with "v1" false in
  let t := {| now_timer := 10%Z; ctx_done := None;
              GetVariable := fun _ => inr Demo.unavailable;
              now_rpc := 600000000005%Z; now_deleted := 600000000006%Z |} in
  (lastRPCTime w + waitTime w
   <= lastRPCTime (fst (fst (Watch_iter Demo.ptypes_Timestamp w t))))%Z.
Proof.
  cbv zeta.
  refine (proj1 (X17_RPCs_are_a_wait_time_apart Demo.ptypes_Timestamp
           (Demo.w_with "v1" false)
           {| now_timer := 10%Z; ctx_done := None;
              GetVariable := fun _ => inr Demo.unavailable;
              now_rpc := 600000000005%Z; now_deleted := 600000000006%Z |}
           _ _ eq_refl _)).
  - cbn. unfold maxDuration. lia.
  - cbn. lia.
  - unfold Traces.timer_respected. vm_compute. discriminate.
Defined.
